(** * Stateful AI chatbot: memory management and the ask operation

    A shallow embedding of the Python sources

      - [app/core/tokens.py]            (length estimator)
      - [app/core/config.py]            (settings record)
      - [app/services/memory/memory.py] (session model, the two strategies)
      - [app/services/llm/providers.py] (the two generation backends)
      - [app/db/redis_store.py]         (the chat repository over Redis)
      - [app/services/chat_service.py]  (the orchestrator, [ask])
      - [app/api/routes.py]             (the [/ask] endpoint)

    Python [int] is [Z]; a Python [str] is a [string] whose characters are
    the code points U+0000..U+00FF; a Python list is a [list]; the Redis
    database is a finite map from key to value.  Calls that touch the outside
    world (Redis, the two model clients) run in a state-and-exception monad
    over a [World] that also keeps a log of the calls made. *)

From Stdlib Require Import ZArith NArith String Ascii List Bool Lia.
From stdpp Require Import base option strings gmap.
Import ListNotations.

Local Open Scope string_scope.
Local Open Scope list_scope.

(** ** Python primitives used by the sources *)

Module Py.

Definition str := string.

(** The newline character, written [\n] in the sources. *)
Definition NL : str := String (ascii_of_nat 10) EmptyString.

(** [str.isspace] on one character, for code points below 256:
    TAB..CR, FS..US, SPACE, NEL and NBSP. *)
Definition isspace (c : ascii) : bool :=
  let n := N_of_ascii c in
  ((9 <=? n) && (n <=? 13) || (28 <=? n) && (n <=? 32)
   || (n =? 133) || (n =? 160))%N.

(** [not s] for a string. *)
Definition is_empty (s : str) : bool :=
  match s with EmptyString => true | String _ _ => false end.

(** [bool(s)] for a string. *)
Definition truthy (s : str) : bool := negb (is_empty s).

(** [bool(s)] for a string that may be [None]. *)
Definition opt_truthy (s : option str) : bool :=
  match s with Some x => truthy x | None => false end.

(** [a or b] on strings. *)
Definition str_or (a b : str) : str := if truthy a then a else b.

(** [a or b] where [a] may be [None]. *)
Definition opt_or {A} (falsy : A -> bool) (a : option A) (b : A) : A :=
  match a with
  | Some x => if falsy x then b else x
  | None => b
  end.

Fixpoint lstrip (s : str) : str :=
  match s with
  | EmptyString => EmptyString
  | String c r => if isspace c then lstrip r else s
  end.

Fixpoint rstrip (s : str) : str :=
  match s with
  | EmptyString => EmptyString
  | String c r =>
      let r' := rstrip r in
      if isspace c && is_empty r' then EmptyString else String c r'
  end.

(** [s.strip()] *)
Definition strip (s : str) : str := rstrip (lstrip s).

(** Every character is whitespace ([s.strip()] is then empty). *)
Fixpoint all_space (s : str) : bool :=
  match s with
  | EmptyString => true
  | String c r => isspace c && all_space r
  end.

Definition lower_char (c : ascii) : ascii :=
  let n := N_of_ascii c in
  if ((65 <=? n) && (n <=? 90)
      || (192 <=? n) && (n <=? 222) && negb (n =? 215))%N
  then ascii_of_N (n + 32) else c.

(** [s.lower()] *)
Fixpoint lower (s : str) : str :=
  match s with
  | EmptyString => EmptyString
  | String c r => String (lower_char c) (lower r)
  end.

(** [s.upper()] on the letters whose capital is again below U+0100; the
    sources apply it to the role names only. *)
Definition upper_char (c : ascii) : ascii :=
  let n := N_of_ascii c in
  if ((97 <=? n) && (n <=? 122)
      || (224 <=? n) && (n <=? 254) && negb (n =? 247))%N
  then ascii_of_N (n - 32) else c.

Fixpoint upper (s : str) : str :=
  match s with
  | EmptyString => EmptyString
  | String c r => String (upper_char c) (upper r)
  end.

(** [sep.join(parts)] *)
Fixpoint join (sep : str) (parts : list str) : str :=
  match parts with
  | [] => EmptyString
  | [p] => p
  | p :: ps => p +:+ sep +:+ join sep ps
  end.

(** [len(s)] and [len(l)] *)
Definition len (s : str) : Z := Z.of_nat (String.length s).
Definition llen {A} (l : list A) : Z := Z.of_nat (List.length l).

(** [x in (a, b, ...)] on strings *)
Definition str_in (x : str) (xs : list str) : bool :=
  existsb (String.eqb x) xs.

(** A slice bound [i] against a sequence of length [n]: a negative bound
    counts from the end, and both ends are clamped into [0..n]. *)
Definition bound (i n : Z) : nat :=
  Z.to_nat (if (i <? 0)%Z then Z.max 0 (i + n) else Z.min i n).

(** [l[i:]] *)
Definition slice_from {A} (l : list A) (i : Z) : list A :=
  skipn (bound i (llen l)) l.

(** [l[:i]] *)
Definition slice_to {A} (l : list A) (i : Z) : list A :=
  firstn (bound i (llen l)) l.

End Py.

(** ** app/core/tokens.py *)

Module tokens.

(** Rough token count: about four characters per token. *)
Definition estimate_tokens (text : Py.str) : Z :=
  if Py.is_empty text || Py.is_empty (Py.strip text) then 0%Z
  else Z.max 1 (Py.len text / 4).

End tokens.

(** ** app/core/config.py *)

Module config.

Record Settings := mkSettings {
  google_api_key : Py.str;
  default_provider : Py.str;
  gemini_model : Py.str;
  ollama_host : Py.str;
  ollama_model : Py.str;
  redis_url : Py.str;
  memory_strategy : Py.str;
  fetch_last_n : Z;
  max_tokens_before_summarize : Z;
  max_messages : Z;
  keep_last : Z;
  window_size : Z
}.

End config.

(** ** Effects: a state-and-exception monad

    A call either returns a value or raises; the state reached so far is
    kept in both cases, as an exception in Python does not undo writes. *)

Inductive Exn :=
| ValueError (msg : Py.str)      (* raised by the service itself *)
| ResponseError (msg : Py.str)   (* raised by the Redis client *)
| ClientError (msg : Py.str).    (* raised by a model client *)

Inductive Outcome (A : Type) :=
| Ok (a : A)
| Raise (e : Exn).
Arguments Ok {A} a.
Arguments Raise {A} e.

Definition M (W A : Type) : Type := W -> Outcome A * W.

Definition ret {W A} (a : A) : M W A := fun w => (Ok a, w).

Definition raise {W A} (e : Exn) : M W A := fun w => (Raise e, w).

Definition bind {W A B} (c : M W A) (k : A -> M W B) : M W B :=
  fun w =>
    match c w with
    | (Ok a, w') => k a w'
    | (Raise e, w') => (Raise e, w')
    end.

Notation "'do' x <- c ; k" := (bind c (fun x => k))
  (at level 10, x name, c at level 100, k at level 200).
Notation "'do' ' pat <- c ; k" :=
  (bind c (fun x => match x with pat => k end))
  (at level 10, pat pattern, c at level 100, k at level 200).
Notation "'exec' c ; k" := (bind c (fun _ => k))
  (at level 10, c at level 100, k at level 200).

(** ** app/services/llm/providers.py: the provider protocol *)

Inductive ProviderName := gemini | ollama.

(** [class LLMProvider(Protocol)]: a name and the two capabilities. *)
Class LLMProvider (W P : Type) := {
  name : P -> ProviderName;
  generate : P -> Py.str -> M W Py.str;
  summarize : P -> Py.str -> M W Py.str
}.

(** ** app/services/memory/memory.py *)

Module memory.

Inductive Role := user | assistant.

Definition role_str (r : Role) : Py.str :=
  match r with user => "user" | assistant => "assistant" end.

Record Message := mkMessage { role : Role; content : Py.str }.

Record ChatSession := mkChatSession {
  summary : Py.str;
  messages : list Message
}.

(** [f"{m.role.upper()}: {m.content}"] *)
Definition render (m : Message) : Py.str :=
  Py.upper (role_str (role m)) +:+ ": " +:+ content m.

Definition transcript (self : ChatSession) : Py.str :=
  let parts := [] in
  let parts :=
    if Py.truthy (Py.strip (summary self))
    then parts ++ ["SUMMARY SO FAR:" +:+ Py.NL +:+ Py.strip (summary self)]
    else parts in
  let parts :=
    match messages self with
    | [] => parts
    | _ => (parts ++ ["RECENT MESSAGES:"]) ++ map render (messages self)
    end in
  Py.strip (Py.join Py.NL parts).

(** The Python function changes the session in place; here the changed
    session is returned. *)
Definition apply_sliding_window (session : ChatSession) (window_size : Z)
  : ChatSession :=
  if (window_size <=? 0)%Z then
    mkChatSession (summary session) []
  else if (Py.llen (messages session) >? window_size)%Z then
    mkChatSession (summary session)
                  (Py.slice_from (messages session) (- window_size))
  else session.

(** When history grows beyond [max_messages], summarize older messages into
    the summary and keep only the last [keep_last] messages.  The Python
    function changes the session in place; here the changed session is
    returned, and a raise leaves the caller with the session it had. *)
Definition apply_rolling_summary {W P} `{LLMProvider W P}
    (session : ChatSession) (provider : P) (max_messages keep_last : Z)
  : M W ChatSession :=
  if (max_messages <=? 0)%Z then ret session
  else if (Py.llen (messages session) <=? max_messages)%Z then ret session
  else
    let keep_last := Z.max 0 keep_last in
    let older :=
      if (keep_last <? Py.llen (messages session))%Z
      then Py.slice_to (messages session) (- keep_last) else [] in
    let recent :=
      if (keep_last >? 0)%Z
      then Py.slice_from (messages session) (- keep_last) else [] in
    match older with
    | [] => ret session
    | _ :: _ =>
        let older_transcript := Py.join Py.NL (map render older) in
        let older_transcript :=
          if Py.truthy (Py.strip (summary session))
          then "Existing summary:" +:+ Py.NL
               +:+ Py.strip (summary session)
               +:+ Py.NL +:+ Py.NL +:+ "New messages to incorporate:" +:+ Py.NL
               +:+ older_transcript
          else older_transcript in
        do s <- summarize provider older_transcript;
        ret (mkChatSession (Py.strip s) recent)
    end.

End memory.

(** ** The Redis client, as far as the repository uses it

    A key holds a list or a string; a command against a key of the other
    kind raises (Redis answers WRONGTYPE).  The repository stores each
    message as the JSON text of its two fields and parses it back on read;
    the list items are kept here as the messages themselves. *)

Module redis.

Inductive Value :=
| VList (items : list memory.Message)
| VString (s : Py.str).

Abbreviation Db := (gmap string Value).

Definition WRONGTYPE : Exn :=
  ResponseError
    "WRONGTYPE Operation against a key holding the wrong kind of value".

(** The items at the inclusive index range [start..stop], the way LRANGE
    and LTRIM read their bounds. *)
Definition range {A} (l : list A) (start stop : Z) : list A :=
  let llen := Py.llen l in
  let start := if (start <? 0)%Z then (llen + start)%Z else start in
  let stop := if (stop <? 0)%Z then (llen + stop)%Z else stop in
  let start := if (start <? 0)%Z then 0%Z else start in
  if (start >? stop)%Z || (start >=? llen)%Z then []
  else
    let stop := if (stop >=? llen)%Z then (llen - 1)%Z else stop in
    firstn (Z.to_nat (stop - start + 1)) (skipn (Z.to_nat start) l).

Definition lrange (key : Py.str) (start stop : Z)
  : M Db (list memory.Message) :=
  fun d =>
    match d !! key with
    | None => (Ok [], d)
    | Some (VList l) => (Ok (range l start stop), d)
    | Some (VString _) => (Raise WRONGTYPE, d)
    end.

Definition get (key : Py.str) : M Db (option Py.str) :=
  fun d =>
    match d !! key with
    | None => (Ok None, d)
    | Some (VString s) => (Ok (Some s), d)
    | Some (VList _) => (Raise WRONGTYPE, d)
    end.

Definition rpush (key : Py.str) (item : memory.Message) : M Db unit :=
  fun d =>
    match d !! key with
    | None => (Ok tt, <[key := VList [item]]> d)
    | Some (VList l) => (Ok tt, <[key := VList (l ++ [item])]> d)
    | Some (VString _) => (Raise WRONGTYPE, d)
    end.

Definition set (key : Py.str) (value : Py.str) : M Db unit :=
  fun d => (Ok tt, <[key := VString value]> d).

Definition delete (key : Py.str) : M Db unit :=
  fun d => (Ok tt, base.delete key d).

(** A list that becomes empty is removed with its key. *)
Definition ltrim (key : Py.str) (start stop : Z) : M Db unit :=
  fun d =>
    match d !! key with
    | None => (Ok tt, d)
    | Some (VList l) =>
        match range l start stop with
        | [] => (Ok tt, base.delete key d)
        | kept => (Ok tt, <[key := VList kept]> d)
        end
    | Some (VString _) => (Raise WRONGTYPE, d)
    end.

End redis.

(** ** The world: the Redis database, the service's lazily created Gemini
    provider, and the log of calls made to the repository and the backends *)

(** [GeminiProvider(model, client)]; the client is known by its API key. *)
Record GeminiProvider := mkGeminiProvider {
  gemini_model : Py.str;
  gemini_client : Py.str
}.

(** [OllamaProvider(model, client)]; the client is known by its host. *)
Record OllamaProvider := mkOllamaProvider {
  ollama_model : Py.str;
  ollama_client : Py.str
}.

Inductive Event :=
| EvGenerate (backend : ProviderName) (prompt : Py.str)
| EvSummarize (backend : ProviderName) (text : Py.str)
| EvGetSummary (session_id : Py.str)
| EvGetLastMessages (session_id : Py.str) (limit : Z)
| EvAppendMessages (session_id : Py.str) (msgs : list memory.Message)
| EvSetSummary (session_id : Py.str) (summary : Py.str)
| EvTrimMessages (session_id : Py.str) (keep_last : Z).

Record World := mkWorld {
  db : redis.Db;
  service_gemini : option GeminiProvider;   (* [ChatService._gemini] *)
  calls : list Event
}.

Definition log (e : Event) : M World unit :=
  fun w => (Ok tt, mkWorld (db w) (service_gemini w) (calls w ++ [e])).

Definition on_redis {A} (c : M redis.Db A) : M World A :=
  fun w =>
    let (r, d) := c (db w) in (r, mkWorld d (service_gemini w) (calls w)).

Definition read_gemini : M World (option GeminiProvider) :=
  fun w => (Ok (service_gemini w), w).

Definition write_gemini (g : option GeminiProvider) : M World unit :=
  fun w => (Ok tt, mkWorld (db w) g (calls w)).

(** What a model client answers: the text of the response, if it has one,
    or an exception. *)
Inductive ClientReply :=
| Reply (text : option Py.str)
| Fails (e : Exn).

(** The two remote models.  An answer may depend on everything that was
    called before, besides the client, the model name and the prompt. *)
Class Backends := {
  genai_generate_content :
    list Event -> Py.str -> Py.str -> Py.str -> ClientReply;
  ollama_chat :
    list Event -> Py.str -> Py.str -> Py.str -> ClientReply
}.

Definition call_client (f : list Event -> ClientReply)
  : M World (option Py.str) :=
  fun w =>
    match f (calls w) with
    | Reply text => (Ok text, w)
    | Fails e => (Raise e, w)
    end.

Fixpoint for_each {W A} (l : list A) (body : A -> M W unit) : M W unit :=
  match l with
  | [] => ret tt
  | x :: l' => exec body x; for_each l' body
  end.

(** A model as [client.models.list()] yields it, as far as the service
    reads it: the attributes [name] and [display_name], [None] when the
    object has no such attribute. *)
Record ModelInfo := mkModelInfo {
  model_name : option Py.str;
  model_display_name : option Py.str
}.

Inductive CatalogReply :=
| Listed (models : list ModelInfo)
| ListFails (e : Exn).

(** The model catalogue of the Gemini client, by API key.  Listing is not
    entered in the call log, which keeps the repository and the generation
    calls. *)
Class ModelCatalog := {
  genai_models_list : list Event -> Py.str -> CatalogReply
}.

Definition call_catalog (f : list Event -> CatalogReply)
  : M World (list ModelInfo) :=
  fun w =>
    match f (calls w) with
    | Listed models => (Ok models, w)
    | ListFails e => (Raise e, w)
    end.

(** ** app/services/llm/providers.py: the two providers *)

Section providers.
Context `{Backends}.

(** The prompt that both [summarize] methods build around [text]. *)
Definition summarize_prompt (text : Py.str) : Py.str :=
  "Summarize the key points of this chat so far." +:+ Py.NL +:+ Py.NL
  +:+ "Requirements:" +:+ Py.NL
  +:+ "- Keep names, goals, constraints, decisions, and open questions"
  +:+ Py.NL
  +:+ "- Use concise bullet points" +:+ Py.NL
  +:+ "- Do not invent details" +:+ Py.NL +:+ Py.NL
  +:+ "CHAT:" +:+ Py.NL +:+ text.

Definition GeminiProvider_generate (self : GeminiProvider)
    (prompt : Py.str) : M World Py.str :=
  exec log (EvGenerate gemini prompt);
  do response <-
    call_client (fun history =>
      genai_generate_content history
        (gemini_client self) (gemini_model self) prompt);
  ret (Py.str_or (match response with Some text => text | None => "" end)
                 "").

Definition GeminiProvider_summarize (self : GeminiProvider)
    (text : Py.str) : M World Py.str :=
  exec log (EvSummarize gemini text);
  let prompt := summarize_prompt text in
  GeminiProvider_generate self prompt.

Definition OllamaProvider_generate (self : OllamaProvider)
    (prompt : Py.str) : M World Py.str :=
  exec log (EvGenerate ollama prompt);
  do response <-
    call_client (fun history =>
      ollama_chat history
        (ollama_client self) (ollama_model self) prompt);
  ret (Py.str_or (match response with Some text => text | None => "" end)
                 "").

Definition OllamaProvider_summarize (self : OllamaProvider)
    (text : Py.str) : M World Py.str :=
  exec log (EvSummarize ollama text);
  let prompt := summarize_prompt text in
  OllamaProvider_generate self prompt.

#[export] Instance Gemini_is_provider
  : LLMProvider World GeminiProvider :=
  {| name := fun _ => gemini;
     generate := GeminiProvider_generate;
     summarize := GeminiProvider_summarize |}.

#[export] Instance Ollama_is_provider
  : LLMProvider World OllamaProvider :=
  {| name := fun _ => ollama;
     generate := OllamaProvider_generate;
     summarize := OllamaProvider_summarize |}.

(** A value of the protocol type: one of the two implementations. *)
Inductive Provider :=
| UseGemini (p : GeminiProvider)
| UseOllama (p : OllamaProvider).

#[export] Instance Provider_is_provider : LLMProvider World Provider :=
  {| name := fun p =>
       match p with UseGemini g => name g | UseOllama o => name o end;
     generate := fun p prompt =>
       match p with
       | UseGemini g => generate g prompt
       | UseOllama o => generate o prompt
       end;
     summarize := fun p text =>
       match p with
       | UseGemini g => summarize g text
       | UseOllama o => summarize o text
       end |}.

End providers.

(** ** app/db/redis_store.py *)

Module ChatRepository.

Definition _key_messages (session_id : Py.str) : Py.str :=
  "chat:session:" +:+ session_id +:+ ":messages".

Definition _key_summary (session_id : Py.str) : Py.str :=
  "chat:session:" +:+ session_id +:+ ":summary".

(** Retrieve the last [limit] messages for the session (newest at end). *)
Definition get_last_messages (session_id : Py.str) (limit : Z)
  : M World (list memory.Message) :=
  exec log (EvGetLastMessages session_id limit);
  let key := _key_messages session_id in
  do raw <- on_redis (redis.lrange key (- limit) (-1));
  ret raw.

(** Get the rolling summary for the session, if any. *)
Definition get_summary (session_id : Py.str) : M World Py.str :=
  exec log (EvGetSummary session_id);
  let key := _key_summary session_id in
  do val <- on_redis (redis.get key);
  ret (match val with
       | Some v => if Py.truthy v then Py.strip (Py.str_or v "") else ""
       | None => ""
       end).

(** Append new messages to the session. *)
Definition append_messages (session_id : Py.str)
    (messages : list memory.Message) : M World unit :=
  exec log (EvAppendMessages session_id messages);
  match messages with
  | [] => ret tt
  | _ :: _ =>
      let key := _key_messages session_id in
      for_each messages (fun m => on_redis (redis.rpush key m))
  end.

(** Store the rolling summary for the session. *)
Definition set_summary (session_id : Py.str) (summary : Py.str)
  : M World unit :=
  exec log (EvSetSummary session_id summary);
  on_redis (redis.set (_key_summary session_id) summary).

(** Keep only the last [keep_last] messages; drop older ones. *)
Definition trim_messages (session_id : Py.str) (keep_last : Z)
  : M World unit :=
  exec log (EvTrimMessages session_id keep_last);
  if (keep_last <=? 0)%Z then
    on_redis (redis.delete (_key_messages session_id))
  else
    on_redis (redis.ltrim (_key_messages session_id) (- keep_last) (-1)).

End ChatRepository.

(** ** app/services/chat_service.py *)

Module ChatService.
Section service.
Context `{Backends}.

Record ChatResult := mkChatResult {
  provider : ProviderName;
  reply : Py.str;
  session_id : option Py.str
}.

(** The service object: [_repo] is the database of the world and
    [_gemini] its [service_gemini] slot. *)
Record t := mk {
  _settings : config.Settings;
  _ollama : OllamaProvider
}.

Definition __init__ (settings : config.Settings) : M World t :=
  exec write_gemini None;
  ret (mk settings
          (mkOllamaProvider (config.ollama_model settings)
                            (config.ollama_host settings))).

Definition _get_gemini (self : t) : M World GeminiProvider :=
  do cached <- read_gemini;
  match cached with
  | None =>
      let key := config.google_api_key (_settings self) in
      if negb (Py.truthy key) then
        raise (ValueError
          ("Gemini requires GOOGLE_API_KEY. "
           +:+ "Set GOOGLE_API_KEY=your_key in .env "
           +:+ "(project root) and restart the server."))
      else
        let g := mkGeminiProvider
                   (config.gemini_model (_settings self)) key in
        exec write_gemini (Some g);
        ret g
  | Some g => ret g
  end.

Definition _get_provider (self : t) (provider : Py.str)
  : M World (ProviderName * Provider) :=
  let p := Py.strip (Py.lower (Py.str_or provider "")) in
  if Py.str_in p ["gemini"; ""] then
    do g <- _get_gemini self;
    ret (gemini, UseGemini g)
  else if Py.str_in p ["ollama"; "local"] then
    ret (ollama, UseOllama (_ollama self))
  else raise (ValueError "Provider must be 'gemini' or 'ollama'").

Definition _session_tokens (self : t) (session : memory.ChatSession) : Z :=
  tokens.estimate_tokens (memory.transcript session).

Definition ask (self : t) (prompt provider : Py.str)
    (session_id memory : option Py.str)
    (max_messages keep_last window_size : option Z)
  : M World ChatResult :=
  do '(provider_name, llm) <- _get_provider self provider;
  let mem :=
    Py.str_or
      (Py.opt_or Py.is_empty memory
                 (config.memory_strategy (_settings self)))
      "rolling" in
  let mem :=
    if negb (Py.str_in mem ["rolling"; "window"; "none"])
    then "rolling" else mem in
  (* Stateless: no persistence *)
  if negb (Py.opt_truthy session_id) || (mem =? "none") then
    do reply <- generate llm prompt;
    ret (mkChatResult provider_name reply session_id)
  else
  (* from here on [session_id] is a non-empty string *)
  let sid := match session_id with Some s => s | None => "" end in
  (* Fetch: last N messages + summary from Redis *)
  let fetch_n := config.fetch_last_n (_settings self) in
  do summary <- ChatRepository.get_summary sid;
  do messages <- ChatRepository.get_last_messages sid fetch_n;
  let session := memory.mkChatSession summary messages in
  (* Add current user message *)
  let user_msg := memory.mkMessage memory.user prompt in
  let session :=
    memory.mkChatSession (memory.summary session)
                         (memory.messages session ++ [user_msg]) in
  let max_tokens := config.max_tokens_before_summarize (_settings self) in
  let keep_last_n :=
    Py.opt_or (Z.eqb 0) keep_last (config.keep_last (_settings self)) in
  let max_msg :=
    Py.opt_or (Z.eqb 0) max_messages
              (config.max_messages (_settings self)) in
  let win_size :=
    Py.opt_or (Z.eqb 0) window_size
              (config.window_size (_settings self)) in
  (* Truncation: if over token limit, run summarization first *)
  do session <-
    (if mem =? "rolling" then
       if (_session_tokens self session >? max_tokens)%Z then
         do session <-
           memory.apply_rolling_summary session llm max_msg keep_last_n;
         exec ChatRepository.set_summary sid (memory.summary session);
         exec ChatRepository.trim_messages sid keep_last_n;
         ret session
       else ret session
     else if mem =? "window" then
       ret (memory.apply_sliding_window session win_size)
     else ret session);
  (* Call: send managed history to LLM *)
  let compiled_prompt :=
    Py.strip (memory.transcript session)
    +:+ Py.NL +:+ Py.NL +:+ "ASSISTANT:" in
  do reply <- generate llm compiled_prompt;
  let reply := Py.strip reply in
  (* Save: update Redis with new user/assistant pair *)
  let assistant_msg := memory.mkMessage memory.assistant reply in
  exec ChatRepository.append_messages sid [user_msg; assistant_msg];
  exec (if mem =? "window"
        then ChatRepository.trim_messages sid win_size else ret tt);
  ret (mkChatResult provider_name reply session_id).

Context `{ModelCatalog}.

(** Each listed model becomes a dictionary of its [name] and
    [display_name]; the dictionary is kept as the record of the two. *)
Definition list_gemini_models (self : t) : M World (list ModelInfo) :=
  do g <- _get_gemini self;
  do models <- call_catalog (fun history =>
                 genai_models_list history (gemini_client g));
  ret (map (fun m => mkModelInfo (model_name m) (model_display_name m))
           models).

End service.
End ChatService.

(** ** app/api/routes.py *)

Module routes.
Section routes.
Context `{Backends}.

Inductive Response :=
| Json (provider : Py.str) (reply : Py.str) (session_id : option Py.str)
| HTTPException (status_code : Z) (detail : Py.str).

Definition provider_str (p : ProviderName) : Py.str :=
  match p with gemini => "gemini" | ollama => "ollama" end.

(** [str(e)] *)
Definition exn_str (e : Exn) : Py.str :=
  match e with
  | ValueError msg | ResponseError msg | ClientError msg => msg
  end.

Definition get_chat_service (settings : config.Settings)
  : M World ChatService.t :=
  ChatService.__init__ settings.

(** [GET /ask]; a query parameter left out takes its default, ["gemini"]
    for [provider] and ["rolling"] for [memory]. *)
Definition ask_ai (settings : config.Settings) (prompt : Py.str)
    (provider : option Py.str) (session_id : option Py.str)
    (memory : option Py.str) : World -> Response * World :=
  fun w =>
    let provider := match provider with Some p => p | None => "gemini" end in
    let memory := match memory with Some m => m | None => "rolling" end in
    let run :=
      do service <- get_chat_service settings;
      ChatService.ask service prompt provider session_id (Some memory)
                      None None None in
    match run w with
    | (Ok result, w') =>
        (Json (provider_str (ChatService.provider result))
              (ChatService.reply result)
              (ChatService.session_id result), w')
    | (Raise (ValueError msg), w') => (HTTPException 400 msg, w')
    | (Raise e, w') => (HTTPException 500 (exn_str e), w')
    end.

Context `{ModelCatalog}.

(** [GET /] *)
Definition home : Py.str * Py.str := ("status", "AI Server is running").

Inductive ModelsResponse :=
| ModelsJson (models : list ModelInfo)
| ModelsException (status_code : Z) (detail : Py.str).

(** [GET /models]: list available Gemini models. *)
Definition list_models (settings : config.Settings)
  : World -> ModelsResponse * World :=
  fun w =>
    let run :=
      do service <- get_chat_service settings;
      ChatService.list_gemini_models service in
    match run w with
    | (Ok models, w') => (ModelsJson models, w')
    | (Raise e, w') => (ModelsException 500 (exn_str e), w')
    end.

End routes.
End routes.

(** ** Vocabulary of the statements *)

(** [recent] is the trailing slice of length [k] of [l]: its last [k]
    items, in their order. *)
Definition trailing_slice {A} (l : list A) (k : Z) (recent : list A) : Prop :=
  exists older, l = older ++ recent /\ Py.llen recent = k.

(** The text handed to the backend when [older] is folded into a session
    whose summary so far is [prior]: the rendered messages, one per line,
    after the prior summary when there is one. *)
Definition compaction_text (prior : Py.str) (older : list memory.Message)
  : Py.str :=
  let rendered := Py.join Py.NL (map memory.render older) in
  if Py.is_empty (Py.strip prior) then rendered
  else "Existing summary:" +:+ Py.NL +:+ Py.strip prior
       +:+ Py.NL +:+ Py.NL +:+ "New messages to incorporate:" +:+ Py.NL
       +:+ rendered.

(** The provider selector as [_get_provider] reads it, and whether it is
    one of the identifiers that [_get_provider] knows. *)
Definition selector (provider : Py.str) : Py.str :=
  Py.strip (Py.lower (Py.str_or provider "")).

Definition recognized (provider : Py.str) : bool :=
  Py.str_in (selector provider) ["gemini"; ""; "ollama"; "local"].

(** The memory mode that [ask] works with: the request's, else the
    configured one, else (and for an unknown name) ["rolling"]. *)
Definition memory_mode (self : ChatService.t) (memory : option Py.str) :=
  let mem :=
    Py.str_or
      (Py.opt_or Py.is_empty memory
                 (config.memory_strategy (ChatService._settings self)))
      "rolling" in
  if negb (Py.str_in mem ["rolling"; "window"; "none"])
  then "rolling" else mem.

(** The prompt that the stateful path sends for a session. *)
Definition compiled_prompt (session : memory.ChatSession) : Py.str :=
  Py.strip (memory.transcript session)
  +:+ Py.NL +:+ Py.NL +:+ "ASSISTANT:".

(** A configuration that differs in the default provider only. *)
Definition with_default_provider (d : Py.str) (s : config.Settings)
  : config.Settings :=
  config.mkSettings
    (config.google_api_key s) d (config.gemini_model s)
    (config.ollama_host s) (config.ollama_model s) (config.redis_url s)
    (config.memory_strategy s) (config.fetch_last_n s)
    (config.max_tokens_before_summarize s) (config.max_messages s)
    (config.keep_last s) (config.window_size s).

(** The calls that compact a session: the backend's summarize and the
    repository's [set_summary] and [trim_messages]. *)
Definition is_compaction (e : Event) : bool :=
  match e with
  | EvSummarize _ _ | EvSetSummary _ _ | EvTrimMessages _ _ => true
  | _ => false
  end.

(** The value that [ask] takes for an override: the override when it is
    given and is not 0, else the configured default. *)
Definition resolved (override : option Z) (default : Z) : Z :=
  match override with
  | Some v => if (v =? 0)%Z then default else v
  | None => default
  end.

(** A configuration with other defaults for the three memory settings. *)
Definition with_memory_defaults (max_messages keep_last window_size : Z)
    (s : config.Settings) : config.Settings :=
  config.mkSettings
    (config.google_api_key s) (config.default_provider s)
    (config.gemini_model s) (config.ollama_host s) (config.ollama_model s)
    (config.redis_url s) (config.memory_strategy s) (config.fetch_last_n s)
    (config.max_tokens_before_summarize s)
    max_messages keep_last window_size.

(** The last [n] items of [l] (all of [l] when it has fewer). *)
Definition last_n {A} (n : Z) (l : list A) : list A :=
  skipn (length l - Z.to_nat n) l.

(** The stored log of a session: the list under its messages key, empty
    when the key is missing. *)
Definition stored_log (w : World) (sid : Py.str) : list memory.Message :=
  match db w !! ChatRepository._key_messages sid with
  | Some (redis.VList l) => l
  | _ => []
  end.

(** The messages key of the session is missing or holds a list. *)
Definition log_ok (w : World) (sid : Py.str) : Prop :=
  forall s,
    db w !! ChatRepository._key_messages sid <> Some (redis.VString s).

(** The summary key of the session is missing or holds a string. *)
Definition summary_ok (w : World) (sid : Py.str) : Prop :=
  forall l,
    db w !! ChatRepository._key_summary sid <> Some (redis.VList l).

(** A configuration that differs in the memory strategy only. *)
Definition with_memory_strategy (m : Py.str) (s : config.Settings)
  : config.Settings :=
  config.mkSettings
    (config.google_api_key s) (config.default_provider s)
    (config.gemini_model s) (config.ollama_host s) (config.ollama_model s)
    (config.redis_url s) m (config.fetch_last_n s)
    (config.max_tokens_before_summarize s) (config.max_messages s)
    (config.keep_last s) (config.window_size s).

(** A computation that changes no key of the database besides the two keys
    of session [sid], whether it returns or raises. *)
Definition keeps_other_keys (sid : Py.str) {A} (c : M World A) : Prop :=
  forall w r w',
    c w = (r, w') ->
    forall k,
      k <> ChatRepository._key_messages sid ->
      k <> ChatRepository._key_summary sid ->
      db w' !! k = db w !! k.

(** ** Sample data on which the statements are exercised *)

(** Both model clients answer every prompt with the same response. *)
Definition canned (answer : option Py.str) : Backends :=
  {| genai_generate_content := fun _ _ _ _ => Reply answer;
     ollama_chat := fun _ _ _ _ => Reply answer |}.

Definition sample_settings : config.Settings :=
  config.mkSettings "" "gemini" "gemini-2.0-flash" "http://localhost:11434"
    "llama3" "redis://localhost:6379/0" "rolling" 10 4000 10 4 10.

Definition said (r : memory.Role) (text : Py.str) : memory.Message :=
  memory.mkMessage r text.

Definition three_messages : list memory.Message :=
  [said memory.user "one"; said memory.assistant "two";
   said memory.user "three"].

Definition local_llama : OllamaProvider :=
  mkOllamaProvider "llama3" "http://localhost:11434".

Definition empty_world : World := mkWorld ∅ None [].

(** A service that compacts early: threshold 1, [max_messages] 2,
    [keep_last] 1, window 5, fetching 10 messages. *)
Definition eager_settings : config.Settings :=
  config.mkSettings "" "gemini" "gemini-2.0-flash" "http://localhost:11434"
    "llama3" "redis://localhost:6379/0" "rolling" 10 1 2 1 5.

Definition eager_service : ChatService.t :=
  ChatService.mk eager_settings local_llama.

(** A world in which session "s1" has three stored messages. *)
Definition stored_world : World :=
  mkWorld {[ ChatRepository._key_messages "s1" := redis.VList three_messages ]}
          None [].

(** Twelve stored messages, "m01" to "m12", and a world in which they are
    the log of session "s1". *)
Definition twelve_messages : list memory.Message :=
  [said memory.user "m01"; said memory.assistant "m02";
   said memory.user "m03"; said memory.assistant "m04";
   said memory.user "m05"; said memory.assistant "m06";
   said memory.user "m07"; said memory.assistant "m08";
   said memory.user "m09"; said memory.assistant "m10";
   said memory.user "m11"; said memory.assistant "m12"].

Definition twelve_world : World :=
  mkWorld {[ ChatRepository._key_messages "s1" := redis.VList twelve_messages ]}
          None [].

(** A configuration with an API key, and a catalogue of one model. *)
Definition keyed_settings : config.Settings :=
  config.mkSettings "secret" "gemini" "gemini-2.0-flash"
    "http://localhost:11434" "llama3" "redis://localhost:6379/0"
    "rolling" 10 4000 10 4 10.

Definition one_model : ModelCatalog :=
  {| genai_models_list := fun _ _ =>
       Listed [mkModelInfo (Some "models/gemini-2.0-flash") None] |}.

(** A service that never compacts in rolling mode: threshold 4000. *)
Definition calm_service : ChatService.t :=
  ChatService.mk sample_settings local_llama.

(** * Properties *)

(** ** Python strings and slices *)

Lemma is_empty_true (s : Py.str) : Py.is_empty s = true <-> s = "".
Proof. destruct s; simpl; split; congruence. Qed.

Lemma length_append (s t : Py.str) :
  String.length (s +:+ t) = String.length s + String.length t.
Proof. induction s as [|c s IH]; simpl; [reflexivity | now rewrite IH]. Qed.

Lemma all_space_append (s t : Py.str) :
  Py.all_space (s +:+ t) = Py.all_space s && Py.all_space t.
Proof.
  induction s as [|c s IH]; simpl; [reflexivity |].
  rewrite IH. now rewrite andb_assoc.
Qed.

Lemma all_space_lstrip (s : Py.str) :
  Py.all_space (Py.lstrip s) = Py.all_space s.
Proof.
  induction s as [|c s IH]; simpl; [reflexivity |].
  destruct (Py.isspace c) eqn:E; simpl; [exact IH | now rewrite E].
Qed.

Lemma is_empty_rstrip (s : Py.str) :
  Py.is_empty (Py.rstrip s) = Py.all_space s.
Proof.
  induction s as [|c s IH]; simpl; [reflexivity |].
  rewrite IH.
  destruct (Py.isspace c), (Py.all_space s); reflexivity.
Qed.

(** [s.strip()] is empty exactly when [s] holds whitespace only. *)
Lemma is_empty_strip (s : Py.str) :
  Py.is_empty (Py.strip s) = Py.all_space s.
Proof. unfold Py.strip. now rewrite is_empty_rstrip, all_space_lstrip. Qed.

Lemma llen_nonneg {A} (l : list A) : (0 <= Py.llen l)%Z.
Proof. unfold Py.llen. lia. Qed.

Lemma llen_app {A} (l1 l2 : list A) :
  Py.llen (l1 ++ l2) = (Py.llen l1 + Py.llen l2)%Z.
Proof. unfold Py.llen. rewrite length_app. lia. Qed.

(** [l[-k:]] for [0 < k <= len(l)] is the last [k] items. *)
Lemma slice_from_neg {A} (l : list A) (k : Z) :
  (0 < k <= Py.llen l)%Z ->
  Py.slice_from l (- k) = skipn (length l - Z.to_nat k) l.
Proof.
  intros Hk. unfold Py.slice_from, Py.bound, Py.llen in *.
  destruct (Z.ltb_spec (- k) 0); [| lia].
  f_equal. lia.
Qed.

(** [l[:-k]] for [0 < k <= len(l)] is everything but the last [k] items. *)
Lemma slice_to_neg {A} (l : list A) (k : Z) :
  (0 < k <= Py.llen l)%Z ->
  Py.slice_to l (- k) = firstn (length l - Z.to_nat k) l.
Proof.
  intros Hk. unfold Py.slice_to, Py.bound, Py.llen in *.
  destruct (Z.ltb_spec (- k) 0); [| lia].
  f_equal. lia.
Qed.

(** [l[:-0]] is [l[:0]], the empty list. *)
Lemma slice_to_zero {A} (l : list A) : Py.slice_to l (- 0) = [].
Proof.
  unfold Py.slice_to, Py.bound, Py.llen.
  change (- 0 <? 0)%Z with false. cbv iota.
  replace (Z.to_nat (Z.min (- 0) (Z.of_nat (length l)))) with 0%nat by lia.
  reflexivity.
Qed.

Lemma slices_partition {A} (l : list A) (k : Z) :
  (0 < k <= Py.llen l)%Z ->
  l = Py.slice_to l (- k) ++ Py.slice_from l (- k)
  /\ Py.llen (Py.slice_from l (- k)) = k.
Proof.
  intros Hk. rewrite slice_to_neg, slice_from_neg by exact Hk.
  split; [now rewrite firstn_skipn |].
  unfold Py.llen in *. rewrite length_skipn. lia.
Qed.

Lemma slice_from_trailing {A} (l : list A) (k : Z) :
  (0 < k <= Py.llen l)%Z -> trailing_slice l k (Py.slice_from l (- k)).
Proof.
  intros Hk. exists (Py.slice_to l (- k)). now apply slices_partition.
Qed.

(** ** C9: the length estimator *)

(** C9. [estimate_tokens] is a function of its text alone (equal texts get
    equal estimates), never negative, 0 on every empty or whitespace-only
    text, and it does not decrease when a suffix is appended. *)
Theorem estimate_tokens_monotone :
  (forall t1 t2 : Py.str,
      t1 = t2 -> tokens.estimate_tokens t1 = tokens.estimate_tokens t2)
  /\ (forall text : Py.str, (0 <= tokens.estimate_tokens text)%Z)
  /\ (forall text : Py.str,
         Py.all_space text = true -> tokens.estimate_tokens text = 0%Z)
  /\ (forall text suffix : Py.str,
         (tokens.estimate_tokens text
          <= tokens.estimate_tokens (text +:+ suffix))%Z).
Proof.
  assert (Hpos : forall text : Py.str, (0 <= tokens.estimate_tokens text)%Z).
  { intros text. unfold tokens.estimate_tokens.
    destruct (Py.is_empty text || Py.is_empty (Py.strip text)); lia. }
  repeat split.
  - intros t1 t2 ->. reflexivity.
  - exact Hpos.
  - intros text Hws. unfold tokens.estimate_tokens.
    rewrite is_empty_strip, Hws. now rewrite orb_true_r.
  - intros text suffix.
    unfold tokens.estimate_tokens at 1.
    destruct (Py.is_empty text || Py.is_empty (Py.strip text)) eqn:E;
      [apply Hpos |].
    apply orb_false_iff in E as [Hne Hsp].
    rewrite is_empty_strip in Hsp.
    unfold tokens.estimate_tokens.
    rewrite is_empty_strip, all_space_append, Hsp. simpl.
    destruct text as [|c text]; [discriminate |]. simpl Py.is_empty.
    simpl orb. unfold Py.len. rewrite length_append.
    apply Z.max_le_compat_l.
    apply Z.div_le_mono; lia.
Qed.

Lemma estimate_tokens_monotone_witness :
  tokens.estimate_tokens "abcd" = tokens.estimate_tokens "abcd"
  /\ (0 <= tokens.estimate_tokens "abcd")%Z
  /\ tokens.estimate_tokens "  " = 0%Z
  /\ (tokens.estimate_tokens "abcd"
      <= tokens.estimate_tokens ("abcd" +:+ "efghijkl"))%Z.
Proof.
  destruct estimate_tokens_monotone as (Hdet & Hpos & Hws & Hmono).
  split; [apply Hdet; reflexivity |].
  split; [apply Hpos |].
  split; [apply Hws; reflexivity | apply Hmono].
Defined.

(** ** The monad *)

Lemma bind_ok {W A B} (c : M W A) (k : A -> M W B) (w w1 : W) (a : A) :
  c w = (Ok a, w1) -> bind c k w = k a w1.
Proof. intros Hc. unfold bind. now rewrite Hc. Qed.

Lemma bind_raise {W A B} (c : M W A) (k : A -> M W B) (w w1 : W) (e : Exn) :
  c w = (Raise e, w1) -> bind c k w = (Raise e, w1).
Proof. intros Hc. unfold bind. now rewrite Hc. Qed.

Lemma bind_ok_inv {W A B} (c : M W A) (k : A -> M W B) (w w' : W) (b : B) :
  bind c k w = (Ok b, w') ->
  exists a w1, c w = (Ok a, w1) /\ k a w1 = (Ok b, w').
Proof.
  unfold bind. destruct (c w) as [[a|e] w1]; intros Hk.
  - now exists a, w1.
  - discriminate.
Qed.

(** ** C2: the sliding window *)

(** C2. [apply_sliding_window] never changes the summary.  With
    [window_size <= 0] the messages become the empty list; with
    [0 < window_size] they become the trailing slice of the original list of
    length [min(original_len, window_size)], and nothing changes at all
    when the original count is at most [window_size]. *)
Theorem apply_sliding_window_spec
    (session : memory.ChatSession) (window_size : Z) :
  let after := memory.apply_sliding_window session window_size in
  memory.summary after = memory.summary session
  /\ ((window_size <= 0)%Z -> memory.messages after = [])
  /\ ((0 < window_size)%Z ->
      trailing_slice (memory.messages session)
        (Z.min (Py.llen (memory.messages session)) window_size)
        (memory.messages after))
  /\ ((0 < window_size)%Z ->
      (Py.llen (memory.messages session) <= window_size)%Z ->
      after = session).
Proof.
  destruct session as [summ msgs]. unfold memory.apply_sliding_window.
  cbn [memory.summary memory.messages].
  destruct (Z.leb_spec window_size 0) as [Hle|Hgt].
  - cbn. repeat split; try lia.
  - destruct (Z.gtb_spec (Py.llen msgs) window_size) as [Hbig|Hsmall];
      cbn [memory.summary memory.messages].
    + repeat split; try lia.
      intros _. rewrite Z.min_r by lia.
      apply slice_from_trailing. lia.
    + repeat split; try lia.
      intros _. rewrite Z.min_l by lia.
      exists []. split; reflexivity.
Qed.

Lemma apply_sliding_window_spec_witness :
  let session := memory.mkChatSession "so far" three_messages in
  memory.messages (memory.apply_sliding_window session 0) = []
  /\ trailing_slice three_messages 2
       (memory.messages (memory.apply_sliding_window session 2))
  /\ memory.apply_sliding_window session 5 = session.
Proof.
  intros session.
  split; [apply (apply_sliding_window_spec session 0); lia |].
  split.
  - apply (apply_sliding_window_spec session 2). lia.
  - apply (apply_sliding_window_spec session 5); [lia |].
    vm_compute. discriminate.
Defined.

(** ** C6: when the rolling summary does nothing *)

(** C6. [apply_rolling_summary] returns the session as it was, and leaves
    the world as it was (so no backend call is made, whatever the provider),
    whenever [max_messages <= 0], or the message count is at most
    [max_messages], or the older partition is empty: the clamped
    [keep_last] is at least the message count, or the slice
    [messages[:-keep_last]] that the code takes is the empty list. *)
Theorem apply_rolling_summary_noop {W P} `{LLMProvider W P}
    (session : memory.ChatSession) (provider : P)
    (max_messages keep_last : Z) (w : W) :
  (max_messages <= 0)%Z
  \/ (Py.llen (memory.messages session) <= max_messages)%Z
  \/ (Py.llen (memory.messages session) <= Z.max 0 keep_last)%Z
  \/ Py.slice_to (memory.messages session) (- Z.max 0 keep_last) = [] ->
  memory.apply_rolling_summary session provider max_messages keep_last w
  = (Ok session, w).
Proof.
  intros Hcase. unfold memory.apply_rolling_summary.
  destruct (Z.leb_spec max_messages 0) as [|Hmax]; [reflexivity |].
  destruct (Z.leb_spec (Py.llen (memory.messages session)) max_messages)
    as [|Hcount]; [reflexivity |].
  destruct Hcase as [Hc|[Hc|[Hc|Hc]]]; try lia.
  - destruct (Z.ltb_spec (Z.max 0 keep_last)
                         (Py.llen (memory.messages session))); [lia |].
    reflexivity.
  - destruct (Z.ltb_spec (Z.max 0 keep_last)
                         (Py.llen (memory.messages session)));
      [rewrite Hc |]; reflexivity.
Qed.

Lemma apply_rolling_summary_noop_witness :
  let session := memory.mkChatSession "so far" three_messages in
  @memory.apply_rolling_summary _ _ (@Ollama_is_provider (canned None))
     session local_llama 0 1 empty_world = (Ok session, empty_world)
  /\ @memory.apply_rolling_summary _ _ (@Ollama_is_provider (canned None))
       session local_llama 3 1 empty_world = (Ok session, empty_world)
  /\ @memory.apply_rolling_summary _ _ (@Ollama_is_provider (canned None))
       session local_llama 2 7 empty_world = (Ok session, empty_world).
Proof.
  intros session. split; [| split].
  - apply apply_rolling_summary_noop. left. lia.
  - apply apply_rolling_summary_noop. right; left. vm_compute. discriminate.
  - apply apply_rolling_summary_noop. right; right; left.
    vm_compute. discriminate.
Defined.

(** ** C1: what the rolling summary does when it compacts *)

(** C1, as the code has it.  With [0 < max_messages < message_count] and
    [0 < keep_last < message_count], the messages split into a non-empty
    [older] part and the trailing [keep_last] messages [recent], and the
    backend's summarize capability is called once, on the rendered [older]
    messages behind the prior summary when that is not blank.  When the call
    returns [raw], the session becomes [recent] with summary [raw.strip()],
    which replaces the old summary and is empty exactly when [raw] is
    blank; when the call raises, so does the strategy. *)
Theorem apply_rolling_summary_compacts {W P} `{LLMProvider W P}
    (session : memory.ChatSession) (provider : P)
    (max_messages keep_last : Z) (w : W) :
  (0 < max_messages)%Z ->
  (max_messages < Py.llen (memory.messages session))%Z ->
  (0 < keep_last < Py.llen (memory.messages session))%Z ->
  exists older recent,
    memory.messages session = older ++ recent
    /\ older <> []
    /\ Py.llen recent = keep_last
    /\ (forall raw w',
           summarize provider
             (compaction_text (memory.summary session) older) w
           = (Ok raw, w') ->
           memory.apply_rolling_summary
             session provider max_messages keep_last w
           = (Ok (memory.mkChatSession (Py.strip raw) recent), w')
           /\ Py.is_empty (Py.strip raw) = Py.all_space raw)
    /\ (forall e w',
           summarize provider
             (compaction_text (memory.summary session) older) w
           = (Raise e, w') ->
           memory.apply_rolling_summary
             session provider max_messages keep_last w
           = (Raise e, w')).
Proof.
  intros Hmax Hcount Hkeep.
  destruct (slices_partition (memory.messages session) keep_last)
    as [Hsplit Hlen]; [lia |].
  exists (Py.slice_to (memory.messages session) (- keep_last)),
         (Py.slice_from (memory.messages session) (- keep_last)).
  assert (Hne : Py.slice_to (memory.messages session) (- keep_last) <> []).
  { intros Hnil. rewrite Hnil in Hsplit. simpl in Hsplit.
    rewrite <- Hsplit in Hlen. lia. }
  assert (Hrun :
    memory.apply_rolling_summary session provider max_messages keep_last
    = bind (summarize provider
              (compaction_text (memory.summary session)
                 (Py.slice_to (memory.messages session) (- keep_last))))
           (fun s => ret (memory.mkChatSession (Py.strip s)
                            (Py.slice_from (memory.messages session)
                                           (- keep_last))))).
  { unfold memory.apply_rolling_summary.
    destruct (Z.leb_spec max_messages 0); [lia |].
    destruct (Z.leb_spec (Py.llen (memory.messages session)) max_messages);
      [lia |].
    rewrite Z.max_r by lia. cbv zeta.
    destruct (Z.ltb_spec keep_last (Py.llen (memory.messages session)));
      [| lia].
    destruct (Z.gtb_spec keep_last 0); [| lia].
    destruct (Py.slice_to (memory.messages session) (- keep_last)) as [|m ms]
      eqn:Hold; [congruence |].
    unfold compaction_text, Py.truthy.
    destruct (Py.is_empty (Py.strip (memory.summary session)));
      reflexivity. }
  split; [exact Hsplit |]. split; [exact Hne |]. split; [exact Hlen |].
  split.
  - intros raw w' Hsum. split; [| apply is_empty_strip].
    rewrite Hrun. now rewrite (bind_ok _ _ _ _ _ Hsum).
  - intros e w' Hsum. rewrite Hrun. now apply bind_raise.
Qed.

Lemma apply_rolling_summary_compacts_witness :
  let session := memory.mkChatSession "so far" three_messages in
  exists older recent,
    three_messages = older ++ recent
    /\ older <> []
    /\ Py.llen recent = 1%Z
    /\ @memory.apply_rolling_summary _ _
         (@Ollama_is_provider (canned (Some " - greeted ")))
         session local_llama 2 1 empty_world
       = (Ok (memory.mkChatSession "- greeted" recent),
          mkWorld ∅ None
            [EvSummarize ollama (compaction_text "so far" older);
             EvGenerate ollama
               (summarize_prompt (compaction_text "so far" older))]).
Proof.
  intros session.
  destruct (@apply_rolling_summary_compacts _ _
              (@Ollama_is_provider (canned (Some " - greeted ")))
              session local_llama 2 1 empty_world)
    as (older & recent & Hsplit & Hne & Hlen & Hok & _).
  - lia.
  - vm_compute. reflexivity.
  - split; [lia | vm_compute; reflexivity].
  - exists older, recent.
    split; [exact Hsplit |]. split; [exact Hne |]. split; [exact Hlen |].
    apply (Hok " - greeted "). reflexivity.
Defined.

(** C1 as stated fails twice.  With [keep_last = 0] the slice
    [messages[:-0]] is empty, so nothing is summarized and all messages
    stay; and a backend that answers with blanks leaves an empty summary. *)
Lemma apply_rolling_summary_counterexample :
  let session := memory.mkChatSession "so far" three_messages in
  (@memory.apply_rolling_summary _ _
     (@Ollama_is_provider (canned (Some "- greeted")))
     session local_llama 2 0 empty_world
   = (Ok session, empty_world)
   /\ Py.llen (memory.messages session) <> 0%Z)
  /\ fst (@memory.apply_rolling_summary _ _
            (@Ollama_is_provider (canned (Some "  ")))
            session local_llama 2 1 empty_world)
     = Ok (memory.mkChatSession "" [said memory.user "three"]).
Proof.
  intros session. split; [split |].
  - vm_compute. reflexivity.
  - vm_compute. discriminate.
  - vm_compute. reflexivity.
Qed.

(** ** What each call does to the world *)

Section calls.
Context `{Backends}.

Lemma generate_world (llm : Provider) (prompt : Py.str) (w w1 : World)
    (r : Outcome Py.str) :
  generate llm prompt w = (r, w1) ->
  w1 = mkWorld (db w) (service_gemini w)
               (calls w ++ [EvGenerate (name llm) prompt]).
Proof.
  destruct llm as [g|o]; cbn;
    unfold GeminiProvider_generate, OllamaProvider_generate,
           bind, log, call_client, ret; cbn.
  - destruct (genai_generate_content _ _ _ _); intros [= <- <-]; reflexivity.
  - destruct (ollama_chat _ _ _ _); intros [= <- <-]; reflexivity.
Qed.

Lemma summarize_world (llm : Provider) (text : Py.str) (w w1 : World)
    (r : Outcome Py.str) :
  summarize llm text w = (r, w1) ->
  w1 = mkWorld (db w) (service_gemini w)
               (calls w ++ [EvSummarize (name llm) text;
                            EvGenerate (name llm) (summarize_prompt text)]).
Proof.
  destruct llm as [g|o]; cbn;
    unfold GeminiProvider_summarize, OllamaProvider_summarize,
           GeminiProvider_generate, OllamaProvider_generate,
           bind, log, call_client, ret; cbn.
  - destruct (genai_generate_content _ _ _ _); intros [= <- <-];
      now rewrite <- app_assoc.
  - destruct (ollama_chat _ _ _ _); intros [= <- <-];
      now rewrite <- app_assoc.
Qed.

(** Resolving the provider touches neither the database nor the log. *)
Lemma _get_provider_world (self : ChatService.t) (provider : Py.str)
    (w w1 : World) (r : Outcome (ProviderName * Provider)) :
  ChatService._get_provider self provider w = (r, w1) ->
  db w1 = db w /\ calls w1 = calls w
  /\ (forall pname llm, r = Ok (pname, llm) -> name llm = pname).
Proof.
  unfold ChatService._get_provider, ChatService._get_gemini,
         bind, read_gemini, write_gemini, raise, ret.
  destruct (Py.str_in _ ["gemini"; ""]).
  - destruct (service_gemini w) as [g|].
    + intros [= <- <-]. repeat split. now intros ? ? [= <- <-].
    + destruct (negb _); intros [= <- <-]; cbn; repeat split;
        try discriminate. now intros ? ? [= <- <-].
  - destruct (Py.str_in _ ["ollama"; "local"]); intros [= <- <-];
      repeat split; try discriminate. now intros ? ? [= <- <-].
Qed.

Lemma get_summary_world (sid : Py.str) (w w1 : World)
    (r : Outcome Py.str) :
  ChatRepository.get_summary sid w = (r, w1) ->
  w1 = mkWorld (db w) (service_gemini w) (calls w ++ [EvGetSummary sid]).
Proof.
  unfold ChatRepository.get_summary, bind, log, on_redis, redis.get, ret.
  cbn. destruct (db w !! _) as [[l|s]|]; intros [= <- <-]; reflexivity.
Qed.

Lemma get_last_messages_world (sid : Py.str) (limit : Z) (w w1 : World)
    (r : Outcome (list memory.Message)) :
  ChatRepository.get_last_messages sid limit w = (r, w1) ->
  w1 = mkWorld (db w) (service_gemini w)
               (calls w ++ [EvGetLastMessages sid limit]).
Proof.
  unfold ChatRepository.get_last_messages, bind, log, on_redis,
         redis.lrange, ret.
  cbn. destruct (db w !! _) as [[l|s]|]; intros [= <- <-]; reflexivity.
Qed.

End calls.

(** ** C7: an unknown provider *)

Section unknown_provider.
Context `{Backends}.

Lemma _get_provider_unknown (self : ChatService.t) (provider : Py.str)
    (w : World) :
  recognized provider = false ->
  ChatService._get_provider self provider w
  = (Raise (ValueError "Provider must be 'gemini' or 'ollama'"), w).
Proof.
  unfold recognized, selector, ChatService._get_provider, Py.str_in.
  cbn [existsb]. intros Hno.
  repeat (apply orb_false_iff in Hno as [? Hno]).
  repeat match goal with E : (_ =? _)%string = false |- _ =>
    rewrite E; clear E end.
  reflexivity.
Qed.

(** C7. When the provider selector, lowercased and stripped, is none of
    "gemini", "", "ollama", "local", [ask] raises the [ValueError] of
    [_get_provider] and the world is what it was: no backend call and no
    repository call is logged and the database is untouched.  The
    endpoint answers it with status 400, the status of a [ValueError],
    and has made no call either. *)
Theorem ask_unknown_provider (self : ChatService.t)
    (prompt provider : Py.str) (session_id memory : option Py.str)
    (max_messages keep_last window_size : option Z) (w : World) :
  recognized provider = false ->
  ChatService.ask self prompt provider session_id memory
                  max_messages keep_last window_size w
  = (Raise (ValueError "Provider must be 'gemini' or 'ollama'"), w)
  /\ routes.ask_ai (ChatService._settings self) prompt (Some provider)
                   session_id memory w
     = (routes.HTTPException 400 "Provider must be 'gemini' or 'ollama'",
        mkWorld (db w) None (calls w)).
Proof.
  intros Hno. split.
  - unfold ChatService.ask.
    now rewrite (bind_raise _ _ _ _ _ (_get_provider_unknown self _ w Hno)).
  - unfold routes.ask_ai, routes.get_chat_service, ChatService.__init__,
           ChatService.ask.
    unfold bind at 1 2. cbn [write_gemini ret].
    now rewrite (bind_raise _ _ _ _ _
                   (_get_provider_unknown _ provider _ Hno)).
Qed.

(** The endpoint keeps status 400 for a [ValueError]; a fault of the
    Redis client or of a model client gets status 500. *)
Lemma ask_ai_status (settings : config.Settings) (prompt : Py.str)
    (provider session_id memory : option Py.str) (w : World) :
  match routes.ask_ai settings prompt provider session_id memory w with
  | (routes.HTTPException code _, _) => code = 400%Z \/ code = 500%Z
  | (routes.Json _ _ _, _) => True
  end.
Proof.
  unfold routes.ask_ai.
  destruct (bind _ _ w) as [[res|[msg|msg|msg]] w']; auto.
Qed.

End unknown_provider.

Lemma ask_unknown_provider_witness :
  let self := ChatService.mk sample_settings local_llama in
  @ChatService.ask (canned None) self "hi" "chatgpt" (Some "s1") None
     None None None empty_world
  = (Raise (ValueError "Provider must be 'gemini' or 'ollama'"), empty_world)
  /\ @routes.ask_ai (canned None) sample_settings "hi" (Some "chatgpt")
       (Some "s1") None empty_world
     = (routes.HTTPException 400 "Provider must be 'gemini' or 'ollama'",
        empty_world).
Proof.
  intros self.
  apply (@ask_unknown_provider (canned None) self "hi" "chatgpt").
  vm_compute. reflexivity.
Defined.

(** ** C8: the stateless path *)

Section stateless.
Context `{Backends}.

(** C8. With no session id (absent or empty), or with memory mode
    ["none"], [ask] resolves the provider, which touches neither the
    database nor the log, and then makes one call, the backend's
    [generate] on the raw prompt: the database stays as it was, the log
    grows by that call alone, and a result carries the session id that
    was given and the reply as the backend returned it.  When the
    provider cannot be resolved, nothing is called at all. *)
Theorem ask_stateless (self : ChatService.t)
    (prompt provider : Py.str) (session_id memory : option Py.str)
    (max_messages keep_last window_size : option Z) (w : World) :
  Py.opt_truthy session_id = false \/ memory_mode self memory = "none" ->
  match ChatService._get_provider self provider w with
  | (Ok (provider_name, llm), w1) =>
      exists outcome w',
        ChatService.ask self prompt provider session_id memory
                        max_messages keep_last window_size w
        = (outcome, w')
        /\ db w' = db w
        /\ calls w' = calls w ++ [EvGenerate provider_name prompt]
        /\ match outcome with
           | Ok result =>
               generate llm prompt w1 = (Ok (ChatService.reply result), w')
               /\ ChatService.provider result = provider_name
               /\ ChatService.session_id result = session_id
           | Raise e => generate llm prompt w1 = (Raise e, w')
           end
  | (Raise e, w1) =>
      ChatService.ask self prompt provider session_id memory
                      max_messages keep_last window_size w
      = (Raise e, w1)
      /\ db w1 = db w /\ calls w1 = calls w
  end.
Proof.
  intros Hstateless.
  destruct (ChatService._get_provider self provider w)
    as [[[provider_name llm]|e] w1] eqn:Hprov.
  - destruct (_get_provider_world _ _ _ _ _ Hprov) as (Hdb & Hcalls & Hname).
    specialize (Hname _ _ eq_refl).
    assert (Hask :
      ChatService.ask self prompt provider session_id memory
                      max_messages keep_last window_size w
      = bind (generate llm prompt)
             (fun reply =>
                ret (ChatService.mkChatResult provider_name reply
                                              session_id)) w1).
    { unfold ChatService.ask. rewrite (bind_ok _ _ _ _ _ Hprov).
      cbv zeta. unfold memory_mode in Hstateless. cbv zeta in Hstateless.
      destruct Hstateless as [Hsid | Hmode].
      - rewrite Hsid. reflexivity.
      - rewrite Hmode. rewrite orb_true_r. reflexivity. }
    rewrite Hask. unfold bind.
    destruct (generate llm prompt w1) as [[reply|e] w2] eqn:Hgen;
      apply generate_world in Hgen as Hw2; rewrite Hname in Hw2.
    + exists (Ok (ChatService.mkChatResult provider_name reply session_id)),
             w2.
      subst w2. cbn. rewrite Hdb, Hcalls. repeat split.
    + exists (Raise e), w2. subst w2. cbn. rewrite Hdb, Hcalls.
      repeat split.
  - destruct (_get_provider_world _ _ _ _ _ Hprov) as (Hdb & Hcalls & _).
    split; [| now split].
    unfold ChatService.ask. now rewrite (bind_raise _ _ _ _ _ Hprov).
Qed.

End stateless.

Lemma ask_stateless_witness :
  let self := ChatService.mk sample_settings local_llama in
  Py.opt_truthy None = false
  /\ exists outcome w',
       @ChatService.ask (canned (Some "hello")) self "hi" "ollama" None
         (Some "window") None None None empty_world
       = (outcome, w')
       /\ db w' = ∅
       /\ calls w' = [EvGenerate ollama "hi"]
       /\ match outcome with
          | Ok result =>
              @generate _ _ (@Provider_is_provider (canned (Some "hello")))
                (UseOllama local_llama) "hi" empty_world
              = (Ok (ChatService.reply result), w')
              /\ ChatService.provider result = ollama
              /\ ChatService.session_id result = None
          | Raise e =>
              @generate _ _ (@Provider_is_provider (canned (Some "hello")))
                (UseOllama local_llama) "hi" empty_world
              = (Raise e, w')
          end.
Proof.
  intros self. split; [reflexivity |].
  exact (@ask_stateless (canned (Some "hello")) self "hi" "ollama" None
           (Some "window") None None None empty_world (or_introl eq_refl)).
Defined.

(** ** C10: the configured default provider plays no part *)

Lemma isspace_lower_char (c : ascii) :
  Py.isspace (Py.lower_char c) = Py.isspace c.
Proof. destruct c as [[] [] [] [] [] [] [] []]; reflexivity. Qed.

Lemma all_space_lower (s : Py.str) :
  Py.all_space (Py.lower s) = Py.all_space s.
Proof.
  induction s as [|c s IH]; simpl; [reflexivity |].
  now rewrite isspace_lower_char, IH.
Qed.

Lemma str_or_empty (s : Py.str) : Py.str_or s "" = s.
Proof. destruct s; reflexivity. Qed.

(** A blank selector reads as the empty selector. *)
Lemma selector_blank (provider : Py.str) :
  Py.all_space provider = true -> selector provider = "".
Proof.
  intros Hblank. unfold selector. apply is_empty_true.
  now rewrite is_empty_strip, all_space_lower, str_or_empty.
Qed.

Section default_provider.
Context `{Backends}.

(** C10. Take any service and replace the default provider of its
    configuration by any other value [d]: [ask] on the same arguments and
    the same world returns the same outcome and the same world, and so do
    the endpoint and [_get_provider].  The endpoint reads a missing
    [provider] parameter as "gemini", whatever is configured.  A blank
    selector goes the same way as "gemini": the Gemini provider is
    fetched, and when that returns the provider is named [gemini]. *)
Theorem default_provider_ignored (self : ChatService.t) (d : Py.str)
    (prompt provider : Py.str) (session_id memory : option Py.str)
    (max_messages keep_last window_size : option Z) (w : World) :
  let other :=
    ChatService.mk
      (with_default_provider d (ChatService._settings self))
      (ChatService._ollama self) in
  ChatService.ask other prompt provider session_id memory
                  max_messages keep_last window_size w
  = ChatService.ask self prompt provider session_id memory
                    max_messages keep_last window_size w
  /\ (forall selected : option Py.str,
        routes.ask_ai (with_default_provider d (ChatService._settings self))
                      prompt selected session_id memory w
        = routes.ask_ai (ChatService._settings self)
                        prompt selected session_id memory w)
  /\ routes.ask_ai (ChatService._settings self) prompt None
                   session_id memory w
     = routes.ask_ai (ChatService._settings self) prompt (Some "gemini")
                     session_id memory w
  /\ ChatService._get_provider other provider w
     = ChatService._get_provider self provider w
  /\ (Py.all_space provider = true ->
      ChatService._get_provider self provider w
      = ChatService._get_provider self "gemini" w
      /\ forall provider_name llm w1,
           ChatService._get_provider self provider w
           = (Ok (provider_name, llm), w1) ->
           provider_name = gemini /\ name llm = gemini).
Proof.
  destruct self as [[key dflt gmodel ohost omodel url strategy
                     fetch threshold maxm keep win] llama].
  cbn [ChatService._settings ChatService._ollama].
  split; [reflexivity |]. split; [intros selected; reflexivity |].
  split; [reflexivity |]. split; [reflexivity |].
  intros Hblank.
  assert (Hsel :
    forall self' w0,
      ChatService._get_provider self' provider w0
      = ChatService._get_provider self' "gemini" w0).
  { intros self' w0. unfold ChatService._get_provider.
    fold (selector provider). rewrite (selector_blank _ Hblank).
    reflexivity. }
  split; [apply Hsel |].
  intros provider_name llm w1. rewrite Hsel.
  change (ChatService._get_provider ?s "gemini")
    with (do g <- ChatService._get_gemini s; ret (gemini, UseGemini g)).
  unfold bind.
  match goal with |- context [ChatService._get_gemini ?s w] =>
    destruct (ChatService._get_gemini s w) as [[g|e] w2] end;
    intros [= <- <- <-]. split; reflexivity.
Qed.

End default_provider.

Lemma default_provider_ignored_witness :
  let self := ChatService.mk sample_settings local_llama in
  Py.all_space "  " = true
  /\ ChatService._get_provider self "  " empty_world
     = ChatService._get_provider self "gemini" empty_world
  /\ @ChatService.ask (canned None)
       (ChatService.mk (with_default_provider "ollama" sample_settings)
                       local_llama)
       "hi" "  " None None None None None empty_world
     = @ChatService.ask (canned None) self
         "hi" "  " None None None None None empty_world.
Proof.
  intros self.
  destruct (@default_provider_ignored (canned None) self "ollama" "hi" "  "
              None None None None None empty_world)
    as (Hask & _ & _ & _ & Hblank).
  split; [reflexivity |]. split; [| exact Hask].
  apply Hblank. reflexivity.
Defined.

(** ** What the repository writes log *)

Lemma on_redis_calls {A} (c : M redis.Db A) (w w1 : World) (r : Outcome A) :
  on_redis c w = (r, w1) -> calls w1 = calls w.
Proof.
  unfold on_redis. destruct (c (db w)) as [r0 d]. now intros [= <- <-].
Qed.

Lemma for_each_calls {A} (body : A -> M World unit) (l : list A) :
  (forall x w w1 r, body x w = (r, w1) -> calls w1 = calls w) ->
  forall w w1 r, for_each l body w = (r, w1) -> calls w1 = calls w.
Proof.
  intros Hbody. induction l as [|x l IH]; intros w w1 r; cbn.
  - now intros [= <- <-].
  - unfold bind. destruct (body x w) as [[[]|e] w2] eqn:Hx;
      apply Hbody in Hx.
    + intros Hrest. apply IH in Hrest. congruence.
    + intros [= <- <-]. exact Hx.
Qed.

Lemma set_summary_calls (sid summary : Py.str) (w w1 : World)
    (r : Outcome unit) :
  ChatRepository.set_summary sid summary w = (r, w1) ->
  calls w1 = calls w ++ [EvSetSummary sid summary].
Proof.
  unfold ChatRepository.set_summary, bind, log. cbn.
  now intros [= <- <-].
Qed.

Lemma trim_messages_calls (sid : Py.str) (keep_last : Z) (w w1 : World)
    (r : Outcome unit) :
  ChatRepository.trim_messages sid keep_last w = (r, w1) ->
  calls w1 = calls w ++ [EvTrimMessages sid keep_last].
Proof.
  unfold ChatRepository.trim_messages, bind, log.
  destruct (keep_last <=? 0)%Z; intros Hrun;
    apply on_redis_calls in Hrun; exact Hrun.
Qed.

Lemma append_messages_calls (sid : Py.str) (msgs : list memory.Message)
    (w w1 : World) (r : Outcome unit) :
  ChatRepository.append_messages sid msgs w = (r, w1) ->
  calls w1 = calls w ++ [EvAppendMessages sid msgs].
Proof.
  unfold ChatRepository.append_messages, bind, log.
  destruct msgs as [|m msgs].
  - now intros [= <- <-].
  - intros Hrun. apply for_each_calls in Hrun; [exact Hrun |].
    intros x w2 w3 r2. apply on_redis_calls.
Qed.

Lemma truthy_nonempty (s : Py.str) : s <> "" -> Py.truthy s = true.
Proof. destruct s; [congruence | reflexivity]. Qed.

(** ** C3: the threshold gate of rolling mode *)

Lemma bind_inv {W A B} (c : M W A) (k : A -> M W B) (w w' : W)
    (r : Outcome B) :
  bind c k w = (r, w') ->
  (exists a w1, c w = (Ok a, w1) /\ k a w1 = (r, w'))
  \/ (exists e, c w = (Raise e, w') /\ r = Raise e).
Proof.
  unfold bind. destruct (c w) as [[a|e] w1]; intros Hk.
  - left. now exists a, w1.
  - right. exists e. now injection Hk as <- <-.
Qed.

Section rolling_gate.
Context `{Backends}.

(** The end of the stateful path outside window mode: the generation
    and, when that returned, the append of the new pair. *)
Lemma finish_calls (llm : Provider) (sid prompt text : Py.str)
    (provider_name : ProviderName) (session_id : option Py.str)
    (w0 w' : World) (r : Outcome ChatService.ChatResult) :
  (do reply <- generate llm text;
   exec ChatRepository.append_messages sid
          [memory.mkMessage memory.user prompt;
           memory.mkMessage memory.assistant (Py.strip reply)];
   exec ret tt;
   ret (ChatService.mkChatResult provider_name (Py.strip reply)
                                 session_id)) w0
  = (r, w') ->
  exists rest,
    calls w' = calls w0 ++ rest
    /\ Forall (fun e => is_compaction e = false) rest
    /\ forall result,
         r = Ok result ->
         rest = [EvGenerate (name llm) text;
                 EvAppendMessages sid
                   [memory.mkMessage memory.user prompt;
                    memory.mkMessage memory.assistant
                      (ChatService.reply result)]].
Proof.
  intros Hrun.
  apply bind_inv in Hrun as [(reply & w1 & Hgen & Hrun)|(e & Hgen & ->)];
    pose proof (generate_world _ _ _ _ _ Hgen) as Hw1.
  - apply bind_inv in Hrun as [([] & w2 & Happ & Hrun)|(e & Happ & ->)];
      pose proof (append_messages_calls _ _ _ _ _ Happ) as Hc2.
    + injection Hrun as <- <-.
      eexists. split; [| split].
      * rewrite Hc2, Hw1. cbn [calls]. rewrite <- app_assoc. reflexivity.
      * repeat constructor.
      * intros result [= <-]. reflexivity.
    + eexists. split; [| split].
      * rewrite Hc2, Hw1. cbn [calls]. rewrite <- app_assoc. reflexivity.
      * repeat constructor.
      * discriminate.
  - exists [EvGenerate (name llm) text]. subst w'. cbn [calls].
    split; [reflexivity |]. split; [repeat constructor | discriminate].
Qed.

(** C3. Take [ask] with a session id in memory mode ["rolling"], on a
    run in which the provider is resolved and the two reads return; the
    session is the stored summary with the fetched messages followed by
    the new user message.  If its estimate exceeds
    [max_tokens_before_summarize], the rolling summary runs on it and,
    when it returns, the next two calls are [set_summary] with the
    session's summary and [trim_messages] with the effective [keep_last];
    no further compaction call follows.  If the estimate does not exceed
    the threshold, none of the calls after the reads is a summarize, a
    [set_summary] or a [trim_messages].  In a run that returns, the calls
    that remain are the generation and the append of the new pair. *)
Theorem ask_rolling_gate (self : ChatService.t)
    (prompt provider sid : Py.str) (memory : option Py.str)
    (max_messages keep_last window_size : option Z)
    (w w1 w2 w3 w' : World) (provider_name : ProviderName)
    (llm : Provider) (summary : Py.str) (messages : list memory.Message)
    (r : Outcome ChatService.ChatResult) :
  sid <> "" ->
  memory_mode self memory = "rolling" ->
  ChatService._get_provider self provider w
  = (Ok (provider_name, llm), w1) ->
  ChatRepository.get_summary sid w1 = (Ok summary, w2) ->
  ChatRepository.get_last_messages
    sid (config.fetch_last_n (ChatService._settings self)) w2
  = (Ok messages, w3) ->
  ChatService.ask self prompt provider (Some sid) memory
                  max_messages keep_last window_size w
  = (r, w') ->
  let settings := ChatService._settings self in
  let keep_last_n :=
    Py.opt_or (Z.eqb 0) keep_last (config.keep_last settings) in
  let max_msg :=
    Py.opt_or (Z.eqb 0) max_messages (config.max_messages settings) in
  let user_msg := memory.mkMessage memory.user prompt in
  let session := memory.mkChatSession summary (messages ++ [user_msg]) in
  let finished (session' : memory.ChatSession) (rest : list Event) :=
    Forall (fun e => is_compaction e = false) rest
    /\ forall result,
         r = Ok result ->
         rest = [EvGenerate provider_name (compiled_prompt session');
                 EvAppendMessages sid
                   [user_msg;
                    memory.mkMessage memory.assistant
                      (ChatService.reply result)]] in
  calls w3
  = calls w ++ [EvGetSummary sid;
                EvGetLastMessages sid (config.fetch_last_n settings)]
  /\ ((ChatService._session_tokens self session
       > config.max_tokens_before_summarize settings)%Z ->
      match
        memory.apply_rolling_summary session llm max_msg keep_last_n w3
      with
      | (Ok session', w4) =>
          exists rest,
            calls w'
            = calls w4
              ++ [EvSetSummary sid (memory.summary session');
                  EvTrimMessages sid keep_last_n] ++ rest
            /\ finished session' rest
      | (Raise e, w4) => r = Raise e /\ w' = w4
      end)
  /\ ((ChatService._session_tokens self session
       <= config.max_tokens_before_summarize settings)%Z ->
      exists rest,
        calls w' = calls w3 ++ rest /\ finished session rest).
Proof.
  intros Hsid Hmode Hprov Hsum Hmsgs Hask. cbv zeta.
  unfold ChatService.ask in Hask.
  rewrite (bind_ok _ _ _ _ _ Hprov) in Hask.
  cbv zeta in Hask. unfold memory_mode in Hmode. cbv zeta in Hmode.
  rewrite Hmode in Hask.
  cbn [Py.opt_truthy] in Hask. rewrite (truthy_nonempty _ Hsid) in Hask.
  change ("rolling" =? "none") with false in Hask.
  change ("rolling" =? "rolling") with true in Hask.
  change ("rolling" =? "window") with false in Hask.
  cbn [negb orb] in Hask.
  rewrite (bind_ok _ _ _ _ _ Hsum), (bind_ok _ _ _ _ _ Hmsgs) in Hask.
  cbn [memory.summary memory.messages] in Hask.
  destruct (_get_provider_world _ _ _ _ _ Hprov) as (_ & Hc1 & Hname).
  specialize (Hname _ _ eq_refl).
  pose proof (get_summary_world _ _ _ _ Hsum) as Hw2.
  pose proof (get_last_messages_world _ _ _ _ _ Hmsgs) as Hw3.
  split.
  { subst w3 w2. cbn. rewrite Hc1. now rewrite <- app_assoc. }
  destruct (Z.gtb_spec
              (ChatService._session_tokens self
                 (memory.mkChatSession summary
                    (messages ++ [memory.mkMessage memory.user prompt])))
              (config.max_tokens_before_summarize
                 (ChatService._settings self))) as [Hover|Hunder].
  - split; [intros _ | lia].
    apply bind_inv in Hask as [(session' & w6 & Hbound & Hask)
                              |(e & Hbound & ->)].
    + apply bind_ok_inv in Hbound as (rolled & w4 & Hroll & Hbound).
      apply bind_ok_inv in Hbound as ([] & w5 & Hset & Hbound).
      apply bind_ok_inv in Hbound as ([] & w5' & Htrim & Hbound).
      injection Hbound as <- <-. rewrite Hroll.
      apply finish_calls in Hask as (rest & Hcalls & Hfree & Hok).
      exists rest. rewrite Hname in Hok. split; [| now split].
      rewrite Hcalls, (trim_messages_calls _ _ _ _ _ Htrim),
              (set_summary_calls _ _ _ _ _ Hset).
      now rewrite <- !app_assoc.
    + apply bind_inv in Hbound as [(rolled & w4 & Hroll & Hbound)
                                  |(e' & Hroll & [= ->])];
        rewrite Hroll; [| now split].
      apply bind_inv in Hbound as [([] & w5 & Hset & Hbound)
                                  |(e' & Hset & _)];
        [| unfold ChatRepository.set_summary, bind, log in Hset;
           cbn in Hset; discriminate].
      apply bind_inv in Hbound as [([] & w5' & Htrim & Hbound)
                                  |(e' & Htrim & _)];
        [discriminate |].
      exists []. split; [| split; [constructor | discriminate]].
      rewrite (trim_messages_calls _ _ _ _ _ Htrim),
              (set_summary_calls _ _ _ _ _ Hset).
      now rewrite <- !app_assoc.
  - split; [lia | intros _].
    unfold bind at 1 in Hask. cbn [ret] in Hask.
    apply finish_calls in Hask as (rest & Hcalls & Hfree & Hok).
    exists rest. rewrite Hname in Hok. now split.
Qed.

End rolling_gate.

Lemma ask_rolling_gate_witness :
  let run :=
    @ChatService.ask (canned (Some "ok")) eager_service "hi" "ollama"
      (Some "s1") None None None None stored_world in
  let hi := said memory.user "hi" in
  calls (snd run)
  = [EvGetSummary "s1"; EvGetLastMessages "s1" 10;
     EvSummarize ollama (compaction_text "" three_messages);
     EvGenerate ollama (summarize_prompt (compaction_text "" three_messages))]
    ++ [EvSetSummary "s1" "ok"; EvTrimMessages "s1" 1]
    ++ [EvGenerate ollama (compiled_prompt (memory.mkChatSession "ok" [hi]));
        EvAppendMessages "s1" [hi; said memory.assistant "ok"]].
Proof.
  intros run hi.
  destruct (@ask_rolling_gate (canned (Some "ok")) eager_service "hi" "ollama"
              "s1" None None None None
              stored_world stored_world
              (mkWorld (db stored_world) None [EvGetSummary "s1"])
              (mkWorld (db stored_world) None
                       [EvGetSummary "s1"; EvGetLastMessages "s1" 10])
              (snd run) ollama (UseOllama local_llama) "" three_messages
              (fst run))
    as (_ & Hover & _).
  - discriminate.
  - reflexivity.
  - reflexivity.
  - reflexivity.
  - reflexivity.
  - unfold run. now destruct (ChatService.ask _ _ _ _ _ _ _ _ _).
  - specialize (Hover ltac:(vm_compute; reflexivity)).
    cbn in Hover. destruct Hover as (rest & Hcalls & _ & Hok).
    rewrite Hcalls, (Hok (ChatService.mkChatResult ollama "ok" (Some "s1")))
      by (vm_compute; reflexivity).
    reflexivity.
Defined.

(** ** The repository on a session whose log is known *)

(** [LRANGE key -n -1] and [LTRIM key -n -1] keep the last [n] items. *)
Lemma range_tail {A} (l : list A) (n : Z) :
  (0 < n)%Z ->
  redis.range l (- n) (-1) = skipn (length l - Z.to_nat n) l.
Proof.
  intros Hn. unfold redis.range, Py.llen.
  destruct (Z.ltb_spec (- n) 0) as [_|]; [| lia].
  change (-1 <? 0)%Z with true. cbv iota zeta.
  set (len := Z.of_nat (length l)).
  assert (Hlen : (0 <= len)%Z) by (unfold len; lia).
  destruct (Z.ltb_spec (len + - n) 0) as [Hshort|Hlong].
  - replace (length l - Z.to_nat n)%nat with 0%nat by (unfold len in *; lia).
    destruct (Z.gtb_spec 0 (len + -1)) as [Hnil|Hsome]; cbn [orb].
    + destruct l; [reflexivity | unfold len in *; cbn in *; lia].
    + destruct (Z.geb_spec 0 len) as [|_]; [lia |]. cbn [orb].
      destruct (Z.geb_spec (len + -1) len) as [|_]; [lia |].
      change (Z.to_nat 0) with 0%nat. rewrite skipn_O.
      apply firstn_all2. unfold len. lia.
  - destruct (Z.gtb_spec (len + - n) (len + -1)) as [|_]; [lia |].
    destruct (Z.geb_spec (len + - n) len) as [|_]; [lia |]. cbn [orb].
    destruct (Z.geb_spec (len + -1) len) as [|_]; [lia |].
    replace (Z.to_nat (len + - n)) with (length l - Z.to_nat n)%nat
      by (unfold len; lia).
    apply firstn_all2. rewrite length_skipn. unfold len. lia.
Qed.

Lemma get_last_messages_run (sid : Py.str) (limit : Z) (w : World)
    (l : list memory.Message) :
  db w !! ChatRepository._key_messages sid = Some (redis.VList l) ->
  ChatRepository.get_last_messages sid limit w
  = (Ok (redis.range l (- limit) (-1)),
     mkWorld (db w) (service_gemini w)
             (calls w ++ [EvGetLastMessages sid limit])).
Proof.
  intros Hlog.
  unfold ChatRepository.get_last_messages, bind, log, on_redis,
         redis.lrange, ret.
  cbn. now rewrite Hlog.
Qed.

Lemma append_pair_run (sid : Py.str) (x y : memory.Message) (w : World)
    (l : list memory.Message) :
  db w !! ChatRepository._key_messages sid = Some (redis.VList l) ->
  ChatRepository.append_messages sid [x; y] w
  = (Ok tt,
     mkWorld (<[ChatRepository._key_messages sid
                := redis.VList (l ++ [x; y])]> (db w))
             (service_gemini w)
             (calls w ++ [EvAppendMessages sid [x; y]])).
Proof.
  intros Hlog.
  unfold ChatRepository.append_messages, for_each, bind, log, on_redis,
         redis.rpush, ret.
  cbn. rewrite Hlog. cbn. rewrite lookup_insert_eq. cbn.
  rewrite insert_insert_eq. now rewrite <- app_assoc.
Qed.

Lemma trim_messages_run (sid : Py.str) (keep_last : Z) (w : World)
    (l : list memory.Message) :
  db w !! ChatRepository._key_messages sid = Some (redis.VList l) ->
  (0 < keep_last)%Z -> l <> [] ->
  ChatRepository.trim_messages sid keep_last w
  = (Ok tt,
     mkWorld (<[ChatRepository._key_messages sid
                := redis.VList (skipn (length l - Z.to_nat keep_last) l)]>
                (db w))
             (service_gemini w)
             (calls w ++ [EvTrimMessages sid keep_last])).
Proof.
  intros Hlog Hkeep Hne.
  unfold ChatRepository.trim_messages, bind, log, on_redis, redis.ltrim.
  destruct (Z.leb_spec keep_last 0) as [|_]; [lia |].
  cbn. rewrite Hlog, range_tail by exact Hkeep.
  destruct (skipn (length l - Z.to_nat keep_last) l) as [|m kept] eqn:Hkept;
    [| reflexivity].
  exfalso. apply (f_equal (@length _)) in Hkept.
  rewrite length_skipn in Hkept. cbn in Hkept.
  destruct l; [congruence | cbn in Hkept; lia].
Qed.

(** The window of five over the fetched messages and the new one: the last
    four stored messages and the new one. *)
Lemma window_after_fetch {A} (l : list A) (k : nat) (u : A) :
  (k + 5 <= length l)%nat ->
  Py.slice_from (skipn k l ++ [u]) (- 5)
  = skipn (length l - 4) l ++ [u].
Proof.
  intros Hk. change (-5)%Z with (Z.opp 5).
  rewrite slice_from_neg
    by (unfold Py.llen; rewrite length_app, length_skipn; cbn; lia).
  rewrite length_app, length_skipn. cbn [length].
  rewrite skipn_app, skipn_skipn, length_skipn.
  replace (length l - k + 1 - Z.to_nat 5 + k)%nat
    with (length l - 4)%nat by lia.
  replace (length l - k + 1 - Z.to_nat 5 - (length l - k))%nat
    with 0%nat by lia.
  reflexivity.
Qed.

(** ** C5: window mode on a session of twelve stored messages *)

Section window_scenario.
Context `{Backends}.

(** C5, as the code has it.  Take a run of [ask] that returns, in memory
    mode ["window"] with a session id, effective [window_size] 5 and at
    least 5 messages fetched per request, on a session whose stored log is
    twelve messages ending in [m9; m10; m11; m12].  The calls of the run
    are the two reads, one generation, the append of the new pair and
    [trim_messages] with 5.  Afterwards the stored log is the last three
    prior messages followed by the new user and assistant messages.  The
    prompt sent to the backend is the transcript of five messages: the
    last four prior messages and the new user message. *)
Theorem ask_window_scenario (self : ChatService.t)
    (prompt provider sid : Py.str) (memory : option Py.str)
    (max_messages keep_last window_size : option Z)
    (w w' : World) (result : ChatService.ChatResult)
    (old : list memory.Message) (m9 m10 m11 m12 : memory.Message) :
  sid <> "" ->
  memory_mode self memory = "window" ->
  Py.opt_or (Z.eqb 0) window_size
            (config.window_size (ChatService._settings self)) = 5%Z ->
  (5 <= config.fetch_last_n (ChatService._settings self))%Z ->
  length old = 8 ->
  db w !! ChatRepository._key_messages sid
  = Some (redis.VList (old ++ [m9; m10; m11; m12])) ->
  ChatService.ask self prompt provider (Some sid) memory
                  max_messages keep_last window_size w
  = (Ok result, w') ->
  let user_msg := memory.mkMessage memory.user prompt in
  let assistant_msg :=
    memory.mkMessage memory.assistant (ChatService.reply result) in
  exists llm w1 w2 summary,
    ChatService._get_provider self provider w
    = (Ok (ChatService.provider result, llm), w1)
    /\ ChatRepository.get_summary sid w1 = (Ok summary, w2)
    /\ calls w'
       = calls w
         ++ [EvGetSummary sid;
             EvGetLastMessages
               sid (config.fetch_last_n (ChatService._settings self));
             EvGenerate (ChatService.provider result)
               (compiled_prompt
                  (memory.mkChatSession summary
                     [m9; m10; m11; m12; user_msg]));
             EvAppendMessages sid [user_msg; assistant_msg];
             EvTrimMessages sid 5]
    /\ db w' !! ChatRepository._key_messages sid
       = Some (redis.VList [m10; m11; m12; user_msg; assistant_msg]).
Proof.
  intros Hsid Hmode Hwin Hfetch Hold Hlog Hask. cbv zeta.
  unfold ChatService.ask in Hask.
  apply bind_ok_inv in Hask as ([provider_name llm] & w1 & Hprov & Hask).
  cbv zeta in Hask. unfold memory_mode in Hmode. cbv zeta in Hmode.
  rewrite Hmode, Hwin in Hask.
  cbn [Py.opt_truthy] in Hask. rewrite (truthy_nonempty _ Hsid) in Hask.
  change ("window" =? "none") with false in Hask.
  change ("window" =? "rolling") with false in Hask.
  change ("window" =? "window") with true in Hask.
  cbn [negb orb memory.summary memory.messages] in Hask.
  destruct (_get_provider_world _ _ _ _ _ Hprov) as (Hdb1 & Hc1 & Hname).
  specialize (Hname _ _ eq_refl).
  apply bind_ok_inv in Hask as (summary & w2 & Hsum & Hask).
  pose proof (get_summary_world _ _ _ _ Hsum) as Hw2.
  assert (Hlog2 : db w2 !! ChatRepository._key_messages sid
                  = Some (redis.VList (old ++ [m9; m10; m11; m12])))
    by (subst w2; cbn; now rewrite Hdb1).
  rewrite (bind_ok _ _ _ _ _ (get_last_messages_run _ _ _ _ Hlog2)) in Hask.
  rewrite range_tail in Hask by lia.
  unfold memory.apply_sliding_window in Hask.
  cbn [memory.summary memory.messages] in Hask.
  change (5 <=? 0)%Z with false in Hask. cbv iota in Hask.
  assert (Hfetched :
    (length (old ++ [m9; m10; m11; m12])
     - Z.to_nat (config.fetch_last_n (ChatService._settings self)) + 5
     <= length (old ++ [m9; m10; m11; m12]))%nat)
    by (rewrite length_app, Hold; cbn; lia).
  rewrite (window_after_fetch _ _ _ Hfetched) in Hask.
  replace (Py.llen (skipn _ (old ++ [m9; m10; m11; m12]) ++ _) >? 5)%Z
    with true in Hask
    by (symmetry; apply Z.gtb_lt; unfold Py.llen;
        rewrite length_app, length_skipn, length_app, Hold; cbn; lia).
  replace (skipn (length (old ++ [m9; m10; m11; m12]) - 4)
                 (old ++ [m9; m10; m11; m12]))
    with [m9; m10; m11; m12] in Hask
    by (rewrite length_app, Hold; cbn [length Nat.add Nat.sub];
        rewrite skipn_app, Hold, Nat.sub_diag, <- Hold, skipn_all;
        reflexivity).
  unfold bind at 1 in Hask. cbn [ret] in Hask.
  apply bind_ok_inv in Hask as (reply & w4 & Hgen & Hask).
  pose proof (generate_world _ _ _ _ _ Hgen) as Hw4.
  assert (Hlog4 : db w4 !! ChatRepository._key_messages sid
                  = Some (redis.VList (old ++ [m9; m10; m11; m12])))
    by (subst w4; exact Hlog2).
  rewrite (bind_ok _ _ _ _ _ (append_pair_run _ _ _ _ _ Hlog4)) in Hask.
  match type of Hask with bind _ _ ?w5 = _ =>
    rewrite (bind_ok _ _ _ _ _
               (trim_messages_run sid 5 w5
                  ((old ++ [m9; m10; m11; m12])
                   ++ [memory.mkMessage memory.user prompt;
                       memory.mkMessage memory.assistant (Py.strip reply)])
                  (lookup_insert_eq _ _ _) eq_refl
                  ltac:(destruct old; discriminate))) in Hask
  end.
  injection Hask as <- <-.
  cbn [ChatService.provider ChatService.reply db calls].
  exists llm, w1, w2, summary.
  split; [exact Hprov |]. split; [exact Hsum |]. split.
  - subst w4 w2. cbn [calls]. rewrite Hc1, Hname.
    unfold compiled_prompt. now rewrite <- !app_assoc.
  - rewrite lookup_insert_eq. do 2 f_equal.
    do 9 (destruct old as [|? old]; try discriminate).
    reflexivity.
Qed.

End window_scenario.

Lemma ask_window_scenario_witness :
  exists result w',
    @ChatService.ask (canned (Some "ok")) eager_service "hi" "ollama"
      (Some "s1") (Some "window") None None None twelve_world
    = (Ok result, w')
    /\ calls w'
       = [EvGetSummary "s1"; EvGetLastMessages "s1" 10;
          EvGenerate (ChatService.provider result)
            (compiled_prompt
               (memory.mkChatSession ""
                  [said memory.user "m09"; said memory.assistant "m10";
                   said memory.user "m11"; said memory.assistant "m12";
                   said memory.user "hi"]));
          EvAppendMessages "s1"
            [said memory.user "hi";
             said memory.assistant (ChatService.reply result)];
          EvTrimMessages "s1" 5]
    /\ db w' !! ChatRepository._key_messages "s1"
       = Some (redis.VList
                 [said memory.assistant "m10"; said memory.user "m11";
                  said memory.assistant "m12"; said memory.user "hi";
                  said memory.assistant (ChatService.reply result)]).
Proof.
  destruct (@ChatService.ask (canned (Some "ok")) eager_service "hi" "ollama"
              (Some "s1") (Some "window") None None None twelve_world)
    as [[result|e] w'] eqn:Hask; [| vm_compute in Hask; discriminate].
  destruct (@ask_window_scenario (canned (Some "ok")) eager_service
              "hi" "ollama" "s1" (Some "window") None None None
              twelve_world w' result (firstn 8 twelve_messages)
              (said memory.user "m09") (said memory.assistant "m10")
              (said memory.user "m11") (said memory.assistant "m12"))
    as (llm & w1 & w2 & summary & Hprov & Hsum & Hcalls & Hdb).
  - discriminate.
  - reflexivity.
  - reflexivity.
  - vm_compute. discriminate.
  - reflexivity.
  - reflexivity.
  - exact Hask.
  - injection Hprov as _ <- <-. injection Hsum as <- <-.
    exists result, w'. split; [reflexivity |]. split; [exact Hcalls | exact Hdb].
Defined.

(** C5 as stated fails in its last part: the prompt holds the last four
    stored messages and the new user message, not the last five stored
    messages and the new one. *)
Lemma ask_window_counterexample :
  let hi := said memory.user "hi" in
  let sent :=
    compiled_prompt
      (memory.mkChatSession "" (skipn 8 twelve_messages ++ [hi])) in
  let claimed :=
    compiled_prompt
      (memory.mkChatSession "" (skipn 7 twelve_messages ++ [hi])) in
  @ChatService.ask (canned (Some "ok")) eager_service "hi" "ollama"
    (Some "s1") (Some "window") None None (Some 5%Z) twelve_world
  = (Ok (ChatService.mkChatResult ollama "ok" (Some "s1")),
     mkWorld
       {[ ChatRepository._key_messages "s1"
          := redis.VList (skipn 9 twelve_messages
                          ++ [hi; said memory.assistant "ok"]) ]}
       None
       [EvGetSummary "s1"; EvGetLastMessages "s1" 10;
        EvGenerate ollama sent;
        EvAppendMessages "s1" [hi; said memory.assistant "ok"];
        EvTrimMessages "s1" 5])
  /\ sent <> claimed.
Proof.
  split.
  - vm_compute. reflexivity.
  - vm_compute. discriminate.
Qed.

(** ** C4: the per-request overrides *)

Lemma opt_or_resolved (override : option Z) (default : Z) :
  Py.opt_or (Z.eqb 0) override default = resolved override default.
Proof.
  destruct override as [v|]; [| reflexivity]. cbn.
  now rewrite Z.eqb_sym.
Qed.

Section overrides.
Context `{Backends}.

(** X16. [ask] with overrides runs as [ask] without overrides under a
    configuration whose three defaults are the resolved values: the
    override when it is given and is not 0, else the configured default. *)
Lemma ask_override_resolution (self : ChatService.t)
    (prompt provider : Py.str) (session_id memory : option Py.str)
    (max_messages keep_last window_size : option Z) :
  let settings := ChatService._settings self in
  ChatService.ask self prompt provider session_id memory
                  max_messages keep_last window_size
  = ChatService.ask
      (ChatService.mk
         (with_memory_defaults
            (resolved max_messages (config.max_messages settings))
            (resolved keep_last (config.keep_last settings))
            (resolved window_size (config.window_size settings))
            settings)
         (ChatService._ollama self))
      prompt provider session_id memory None None None.
Proof.
  destruct self as [[key dflt gmodel ohost omodel url strategy
                     fetch threshold maxm keep win] llama].
  cbn [ChatService._settings ChatService._ollama].
  unfold ChatService.ask. cbv zeta.
  cbn [ChatService._settings ChatService._ollama with_memory_defaults
       config.memory_strategy config.fetch_last_n
       config.max_tokens_before_summarize config.max_messages
       config.keep_last config.window_size config.google_api_key
       config.gemini_model config.default_provider config.ollama_host
       config.ollama_model config.redis_url].
  rewrite !opt_or_resolved. reflexivity.
Qed.

End overrides.

(** C4 at an override of 0.  The service is configured with
    [window_size] 5, [keep_last] 1 and [max_messages] 2.  In window mode a
    request with [window_size=0] runs exactly as a request without the
    override: the prompt holds five messages and the log is trimmed to 5,
    not cleared.  In rolling mode a request with [max_messages=0] and
    [keep_last=0] runs exactly as a request without them: the summary is
    taken and the log is trimmed to 1. *)
Lemma ask_zero_override_uses_default :
  let hi := said memory.user "hi" in
  (@ChatService.ask (canned (Some "ok")) eager_service "hi" "ollama"
     (Some "s1") (Some "window") None None (Some 0%Z) twelve_world
   = @ChatService.ask (canned (Some "ok")) eager_service "hi" "ollama"
       (Some "s1") (Some "window") None None None twelve_world
   /\ calls (snd (@ChatService.ask (canned (Some "ok")) eager_service
                    "hi" "ollama" (Some "s1") (Some "window")
                    None None (Some 0%Z) twelve_world))
      = [EvGetSummary "s1"; EvGetLastMessages "s1" 10;
         EvGenerate ollama
           (compiled_prompt
              (memory.mkChatSession "" (skipn 8 twelve_messages ++ [hi])));
         EvAppendMessages "s1" [hi; said memory.assistant "ok"];
         EvTrimMessages "s1" 5])
  /\ (@ChatService.ask (canned (Some "ok")) eager_service "hi" "ollama"
        (Some "s1") (Some "rolling") (Some 0%Z) (Some 0%Z) None stored_world
      = @ChatService.ask (canned (Some "ok")) eager_service "hi" "ollama"
          (Some "s1") (Some "rolling") None None None stored_world
      /\ calls (snd (@ChatService.ask (canned (Some "ok")) eager_service
                       "hi" "ollama" (Some "s1") (Some "rolling")
                       (Some 0%Z) (Some 0%Z) None stored_world))
         = [EvGetSummary "s1"; EvGetLastMessages "s1" 10;
            EvSummarize ollama (compaction_text "" three_messages);
            EvGenerate ollama
              (summarize_prompt (compaction_text "" three_messages));
            EvSetSummary "s1" "ok"; EvTrimMessages "s1" 1;
            EvGenerate ollama
              (compiled_prompt (memory.mkChatSession "ok" [hi]));
            EvAppendMessages "s1" [hi; said memory.assistant "ok"]]).
Proof.
  split; split; vm_compute; reflexivity.
Qed.

(** * Further properties *)

(** ** Stripping *)

Lemma rstrip_idem (s : Py.str) : Py.rstrip (Py.rstrip s) = Py.rstrip s.
Proof.
  induction s as [|c s IH]; [reflexivity |]. cbn.
  destruct (Py.isspace c && Py.is_empty (Py.rstrip s)) eqn:E;
    [reflexivity |].
  cbn. now rewrite IH, E.
Qed.

(** A string that does not begin with whitespace is its own [lstrip]. *)
Lemma lstrip_rstrip_lstrip (s : Py.str) :
  Py.lstrip (Py.rstrip (Py.lstrip s)) = Py.rstrip (Py.lstrip s).
Proof.
  induction s as [|c s IH]; [reflexivity |]. cbn.
  destruct (Py.isspace c) eqn:E; [exact IH |].
  cbn. rewrite E. cbn. now rewrite E.
Qed.

Lemma strip_idem (s : Py.str) : Py.strip (Py.strip s) = Py.strip s.
Proof.
  unfold Py.strip. now rewrite lstrip_rstrip_lstrip, rstrip_idem.
Qed.

Lemma strip_blank (s : Py.str) : Py.all_space s = true -> Py.strip s = "".
Proof. intros Hs. apply is_empty_true. now rewrite is_empty_strip. Qed.

Lemma all_space_strip (s : Py.str) :
  Py.all_space (Py.strip s) = Py.all_space s.
Proof.
  destruct (Py.all_space s) eqn:E; [now rewrite (strip_blank _ E) |].
  rewrite <- is_empty_strip, strip_idem, is_empty_strip. exact E.
Qed.

(** ** the sliding window, applied twice *)

Lemma skipn_skipn_tail {A} (l : list A) (a b : nat) :
  (b <= a <= length l)%nat ->
  skipn (a - b) (skipn (length l - a) l) = skipn (length l - b) l.
Proof.
  intros Hab. rewrite skipn_skipn. f_equal. lia.
Qed.

(** X1. Applying the sliding window with size [a] and then with size [b], both
    positive, is applying it once with the smaller of the two; applying it
    twice with the same size, of any sign, is applying it once. *)
Theorem apply_sliding_window_twice
    (session : memory.ChatSession) (a b : Z) :
  ((0 < a)%Z -> (0 < b)%Z ->
   memory.apply_sliding_window (memory.apply_sliding_window session a) b
   = memory.apply_sliding_window session (Z.min a b))
  /\ memory.apply_sliding_window (memory.apply_sliding_window session a) a
     = memory.apply_sliding_window session a.
Proof.
  destruct session as [summ msgs].
  assert (Hcompose : forall b,
    (0 < a)%Z -> (0 < b)%Z ->
    memory.apply_sliding_window
      (memory.apply_sliding_window (memory.mkChatSession summ msgs) a) b
    = memory.apply_sliding_window (memory.mkChatSession summ msgs)
                                  (Z.min a b)).
  { clear b. intros b Ha Hb. unfold memory.apply_sliding_window.
    cbn [memory.summary memory.messages].
    destruct (Z.leb_spec a 0) as [|_]; [lia |].
    destruct (Z.leb_spec b 0) as [|_]; [lia |].
    destruct (Z.leb_spec (Z.min a b) 0) as [|_]; [lia |].
    destruct (Z.gtb_spec (Py.llen msgs) a) as [Hbig|Hsmall];
      cbn [memory.summary memory.messages].
    - destruct (slices_partition msgs a) as [_ Hlen]; [lia |].
      rewrite Hlen.
      destruct (Z.gtb_spec a b) as [Hab|Hab].
      + destruct (Z.gtb_spec (Py.llen msgs) (Z.min a b)) as [_|]; [| lia].
        rewrite Z.min_r by lia. f_equal.
        rewrite (slice_from_neg (Py.slice_from msgs (- a)) b) by lia.
        rewrite !slice_from_neg by lia.
        rewrite length_skipn.
        unfold Py.llen in *.
        replace (length msgs - (length msgs - Z.to_nat a) - Z.to_nat b)%nat
          with (Z.to_nat a - Z.to_nat b)%nat by lia.
        apply skipn_skipn_tail. lia.
      + rewrite Z.min_l by lia.
        destruct (Z.gtb_spec (Py.llen msgs) a) as [_|]; [| lia].
        reflexivity.
    - destruct (Z.gtb_spec (Py.llen msgs) b) as [Hb'|Hb'];
        destruct (Z.gtb_spec (Py.llen msgs) (Z.min a b)) as [Hm|Hm];
        try lia; try reflexivity.
      now rewrite Z.min_r by lia. }
  split; [apply Hcompose |].
  destruct (Z.leb_spec a 0) as [Hle|Hgt].
  - unfold memory.apply_sliding_window.
    destruct (Z.leb_spec a 0) as [_|]; [reflexivity | lia].
  - rewrite <- (Z.min_id a) at 3. apply Hcompose; exact Hgt.
Qed.

Lemma apply_sliding_window_twice_witness :
  let session := memory.mkChatSession "so far" three_messages in
  memory.apply_sliding_window (memory.apply_sliding_window session 2) 1
  = memory.apply_sliding_window session 1.
Proof.
  intros session.
  apply (apply_sliding_window_twice session 2 1); lia.
Defined.

(** ** the transcript and its estimate *)

Lemma all_space_join_head (sep p : Py.str) (ps : list Py.str) :
  Py.all_space p = false -> Py.all_space (Py.join sep (p :: ps)) = false.
Proof.
  intros Hp. destruct ps as [|q ps]; cbn [Py.join]; [exact Hp |].
  now rewrite all_space_append, Hp.
Qed.

Lemma truthy_strip (s : Py.str) :
  Py.truthy (Py.strip s) = negb (Py.all_space s).
Proof. unfold Py.truthy. now rewrite is_empty_strip. Qed.

Lemma transcript_empty_iff (session : memory.ChatSession) :
  memory.transcript session = ""
  <-> Py.all_space (memory.summary session) = true
      /\ memory.messages session = [].
Proof.
  rewrite <- is_empty_true. unfold memory.transcript. cbv zeta.
  rewrite is_empty_strip, truthy_strip.
  destruct session as [summ msgs]. cbn [memory.summary memory.messages].
  destruct (Py.all_space summ) eqn:Hsum; cbn [negb].
  - destruct msgs as [|m msgs].
    + cbn. split; [now split | reflexivity].
    + cbn [app]. rewrite all_space_join_head by reflexivity.
      split; [discriminate | intros [_ [=]]].
  - destruct msgs as [|m msgs]; cbn [app];
      rewrite all_space_join_head by reflexivity;
      (split; [discriminate | intros [[=] _]]).
Qed.

(** X4. The transcript of a session carries no whitespace at either end, so
    the [strip] that [ask] applies to it before adding the assistant marker
    changes nothing; and it is the empty string exactly when the summary is
    blank and there are no messages. *)
Theorem transcript_stripped (session : memory.ChatSession) :
  Py.strip (memory.transcript session) = memory.transcript session
  /\ compiled_prompt session
     = memory.transcript session +:+ Py.NL +:+ Py.NL +:+ "ASSISTANT:"
  /\ (memory.transcript session = ""
      <-> Py.all_space (memory.summary session) = true
          /\ memory.messages session = []).
Proof.
  assert (Hstrip :
    Py.strip (memory.transcript session) = memory.transcript session)
    by (unfold memory.transcript; cbv zeta; apply strip_idem).
  split; [exact Hstrip |]. split; [| apply transcript_empty_iff].
  unfold compiled_prompt. now rewrite Hstrip.
Qed.

Lemma transcript_stripped_witness :
  memory.transcript (memory.mkChatSession "  " []) = ""
  /\ memory.transcript (memory.mkChatSession "" three_messages) <> "".
Proof.
  split.
  - apply (transcript_stripped (memory.mkChatSession "  " [])).
    split; reflexivity.
  - intros Hempty.
    apply (transcript_stripped (memory.mkChatSession "" three_messages))
      in Hempty as [_ Hnone].
    discriminate Hnone.
Defined.

(** X5. The estimate of a session is 0 exactly when the session is empty (blank
    summary, no messages); any other session counts at least 1.  In [ask]
    the session always holds the new user message, so its estimate is at
    least 1. *)
Theorem session_tokens_zero_iff (self : ChatService.t)
    (session : memory.ChatSession) :
  (ChatService._session_tokens self session = 0%Z
   <-> Py.all_space (memory.summary session) = true
       /\ memory.messages session = [])
  /\ (memory.messages session <> [] ->
      (1 <= ChatService._session_tokens self session)%Z).
Proof.
  assert (Hcases :
    memory.transcript session = ""
    /\ ChatService._session_tokens self session = 0%Z
    \/ memory.transcript session <> ""
       /\ (1 <= ChatService._session_tokens self session)%Z).
  { unfold ChatService._session_tokens, tokens.estimate_tokens.
    assert (Hstrip :
      Py.strip (memory.transcript session) = memory.transcript session)
      by (unfold memory.transcript; cbv zeta; apply strip_idem).
    rewrite Hstrip. rewrite orb_diag.
    destruct (memory.transcript session) as [|c t] eqn:Ht.
    - left. now split.
    - right. split; [discriminate |]. cbn [Py.is_empty]. lia. }
  pose proof (transcript_empty_iff session) as Hiff.
  split; [split |].
  - intros Hzero. apply Hiff.
    destruct Hcases as [[Ht _]|[_ Hone]]; [exact Ht | lia].
  - intros Hblank. apply Hiff in Hblank.
    destruct Hcases as [[_ Hz]|[Hne _]]; [exact Hz | contradiction].
  - intros Hmsgs.
    destruct Hcases as [[Ht _]|[_ Hone]]; [| exact Hone].
    apply Hiff in Ht as [_ Hnil]. contradiction.
Qed.

Lemma session_tokens_zero_iff_witness :
  ChatService._session_tokens calm_service (memory.mkChatSession " " []) = 0%Z
  /\ (1 <= ChatService._session_tokens calm_service
            (memory.mkChatSession "" [said memory.user "hi"]))%Z.
Proof.
  split.
  - apply (session_tokens_zero_iff calm_service). split; reflexivity.
  - apply (session_tokens_zero_iff calm_service). discriminate.
Defined.

(** ** the rolling summary never reorders or invents messages *)

(** X2. Whatever [max_messages] and [keep_last] are, when the rolling summary
    returns, the messages it leaves are a trailing part of the messages it
    was given; and either nothing changed at all, in the session and in the
    world, or the backend was asked once and the new summary is its answer,
    stripped. *)
Theorem apply_rolling_summary_keeps_suffix {W P} `{LLMProvider W P}
    (session session' : memory.ChatSession) (provider : P)
    (max_messages keep_last : Z) (w w' : W) :
  memory.apply_rolling_summary session provider max_messages keep_last w
  = (Ok session', w') ->
  (exists older,
      memory.messages session = older ++ memory.messages session')
  /\ (session' = session /\ w' = w
      \/ exists text raw,
           summarize provider text w = (Ok raw, w')
           /\ memory.summary session' = Py.strip raw).
Proof.
  unfold memory.apply_rolling_summary.
  assert (Hsame : forall s0 w0, @ret W _ session w = (Ok s0, w0) ->
    (exists older, memory.messages session = older ++ memory.messages s0)
    /\ (s0 = session /\ w0 = w
        \/ exists text raw,
             summarize provider text w = (Ok raw, w0)
             /\ memory.summary s0 = Py.strip raw)).
  { intros s0 w0 [= <- <-]. split; [now exists [] | now left]. }
  destruct (max_messages <=? 0)%Z; [apply Hsame |].
  destruct (Py.llen (memory.messages session) <=? max_messages)%Z;
    [apply Hsame |].
  cbv zeta.
  destruct (Z.ltb_spec (Z.max 0 keep_last)
                       (Py.llen (memory.messages session))) as [Hlt|];
    [| apply Hsame].
  destruct (Py.slice_to (memory.messages session) (- Z.max 0 keep_last))
    as [|m older] eqn:Holder; [apply Hsame |].
  intros Hrun.
  apply bind_ok_inv in Hrun as (raw & w1 & Hsum & [= <- <-]).
  cbn [memory.summary memory.messages]. split.
  - destruct (Z.gtb_spec (Z.max 0 keep_last) 0) as [Hpos|Hzero].
    + exists (m :: older). rewrite <- Holder.
      apply slices_partition. lia.
    + exists (memory.messages session). now rewrite app_nil_r.
  - right. eauto.
Qed.

Lemma apply_rolling_summary_keeps_suffix_witness :
  exists older,
    three_messages = older ++ [said memory.user "three"].
Proof.
  destruct (@apply_rolling_summary_keeps_suffix _ _
              (@Ollama_is_provider (canned (Some "ok")))
              (memory.mkChatSession "" three_messages)
              (memory.mkChatSession "ok" [said memory.user "three"])
              local_llama 2 1 empty_world
              (mkWorld ∅ None
                 [EvSummarize ollama (compaction_text "" (firstn 2 three_messages));
                  EvGenerate ollama
                    (summarize_prompt
                       (compaction_text "" (firstn 2 three_messages)))]))
    as [Hsuffix _].
  - vm_compute. reflexivity.
  - exact Hsuffix.
Defined.

(** ** The keys of the repository *)

Lemma append_suffix_inj (s t u : Py.str) : s +:+ u = t +:+ u -> s = t.
Proof.
  revert t. induction s as [|c s IH]; intros [|d t] Heq.
  - reflexivity.
  - apply (f_equal String.length) in Heq.
    rewrite !length_append in Heq. cbn [String.length] in Heq. lia.
  - apply (f_equal String.length) in Heq.
    rewrite !length_append in Heq. cbn [String.length] in Heq. lia.
  - cbn in Heq. injection Heq as -> Heq. f_equal. now apply IH.
Qed.

Lemma append_prefix_inj (u s t : Py.str) : u +:+ s = u +:+ t -> s = t.
Proof.
  induction u as [|c u IH]; [trivial |].
  intros Heq. apply IH. now injection Heq.
Qed.

Lemma list_ascii_of_string_append (s t : Py.str) :
  list_ascii_of_string (s +:+ t)
  = list_ascii_of_string s ++ list_ascii_of_string t.
Proof.
  induction s as [|c s IH]; [reflexivity |].
  change (c :: list_ascii_of_string (s +:+ t)
          = c :: (list_ascii_of_string s ++ list_ascii_of_string t)).
  now rewrite IH.
Qed.

Lemma key_messages_inj (a b : Py.str) :
  ChatRepository._key_messages a = ChatRepository._key_messages b -> a = b.
Proof.
  unfold ChatRepository._key_messages. intros Heq.
  apply append_prefix_inj in Heq. exact (append_suffix_inj _ _ _ Heq).
Qed.

Lemma key_summary_inj (a b : Py.str) :
  ChatRepository._key_summary a = ChatRepository._key_summary b -> a = b.
Proof.
  unfold ChatRepository._key_summary. intros Heq.
  apply append_prefix_inj in Heq. exact (append_suffix_inj _ _ _ Heq).
Qed.

Lemma key_messages_summary_ne (a b : Py.str) :
  ChatRepository._key_messages a <> ChatRepository._key_summary b.
Proof.
  unfold ChatRepository._key_messages, ChatRepository._key_summary.
  intros Heq. apply append_prefix_inj in Heq.
  apply (f_equal (fun s => rev (list_ascii_of_string s))) in Heq.
  rewrite !list_ascii_of_string_append, !rev_app_distr in Heq.
  discriminate Heq.
Qed.

(** ** What the repository reads and writes *)


Lemma last_n_nil {A} (n : Z) : last_n n (@nil A) = [].
Proof. unfold last_n. now rewrite skipn_nil. Qed.






Lemma rpush_each_effect (sid : Py.str) (msgs : list memory.Message) :
  forall w,
    log_ok w sid ->
    exists w',
      for_each msgs
        (fun m => on_redis
                    (redis.rpush (ChatRepository._key_messages sid) m)) w
      = (Ok tt, w')
      /\ stored_log w' sid = stored_log w sid ++ msgs
      /\ log_ok w' sid
      /\ calls w' = calls w
      /\ forall k, k <> ChatRepository._key_messages sid ->
                   db w' !! k = db w !! k.
Proof.
  induction msgs as [|m msgs IH]; intros w Hok.
  - exists w. cbn. rewrite app_nil_r. repeat split; trivial.
  - set (key := ChatRepository._key_messages sid) in *.
    set (w1 := mkWorld (<[key := redis.VList (stored_log w sid ++ [m])]>
                          (db w))
                       (service_gemini w) (calls w)).
    assert (Hpush : on_redis (redis.rpush key m) w = (Ok tt, w1)).
    { unfold on_redis, redis.rpush, w1, stored_log. fold key.
      unfold log_ok in Hok. fold key in Hok.
      destruct (db w !! key) as [[l|s]|] eqn:E;
        [reflexivity | now destruct (Hok s) | reflexivity]. }
    assert (Hlog1 : stored_log w1 sid = stored_log w sid ++ [m]).
    { unfold stored_log at 1. fold key. unfold w1. cbn [db].
      now rewrite lookup_insert_eq. }
    assert (Hok1 : log_ok w1 sid).
    { intros s. fold key. unfold w1. cbn [db].
      rewrite lookup_insert_eq. discriminate. }
    destruct (IH w1 Hok1) as (w' & Hrun & Hlog & Hok' & Hcalls & Hframe).
    exists w'. cbn [for_each]. rewrite (bind_ok _ _ _ _ _ Hpush).
    split; [exact Hrun |]. split.
    { rewrite Hlog, Hlog1. now rewrite <- app_assoc. }
    split; [exact Hok' |]. split; [exact Hcalls |].
    intros k Hk. rewrite (Hframe k Hk). unfold w1. cbn [db].
    now rewrite lookup_insert_ne.
Qed.

Lemma append_messages_effect (sid : Py.str) (msgs : list memory.Message)
    (w : World) :
  log_ok w sid ->
  exists w',
    ChatRepository.append_messages sid msgs w = (Ok tt, w')
    /\ stored_log w' sid = stored_log w sid ++ msgs
    /\ log_ok w' sid
    /\ forall k, k <> ChatRepository._key_messages sid ->
                 db w' !! k = db w !! k.
Proof.
  intros Hok.
  set (w0 := mkWorld (db w) (service_gemini w)
                     (calls w ++ [EvAppendMessages sid msgs])).
  destruct (rpush_each_effect sid msgs w0 Hok)
    as (w' & Hrun & Hlog & Hok' & _ & Hframe).
  exists w'. split; [| now repeat split].
  unfold ChatRepository.append_messages, bind at 1, log. fold w0.
  destruct msgs as [|m msgs]; [| exact Hrun].
  cbn in Hrun. now injection Hrun as <-.
Qed.

Lemma trim_messages_effect (sid : Py.str) (keep_last : Z) (w : World) :
  log_ok w sid ->
  exists w',
    ChatRepository.trim_messages sid keep_last w = (Ok tt, w')
    /\ stored_log w' sid
       = (if (keep_last <=? 0)%Z then []
          else last_n keep_last (stored_log w sid))
    /\ log_ok w' sid
    /\ forall k, k <> ChatRepository._key_messages sid ->
                 db w' !! k = db w !! k.
Proof.
  intros Hok. unfold log_ok in Hok.
  unfold ChatRepository.trim_messages, bind, log, on_redis, redis.delete,
         redis.ltrim, stored_log, log_ok.
  set (key := ChatRepository._key_messages sid) in *.
  unfold Py.str in *.
  assert (Hdel : forall d : redis.Db,
    match base.delete key d !! key with
    | Some (redis.VList l) => l
    | _ => []
    end = []
    /\ (forall s, base.delete key d !! key <> Some (redis.VString s))
    /\ forall k, k <> key -> base.delete key d !! k = d !! k).
  { intros d. rewrite (lookup_delete_eq d key).
    split; [reflexivity |]. split; [discriminate |].
    intros k Hk. now apply lookup_delete_ne. }
  destruct (Z.leb_spec keep_last 0) as [Hle|Hpos]; cbn [db];
    cbv beta iota.
  - eexists. split; [reflexivity |]. cbn [db]. apply Hdel.
  - destruct (db w !! key) as [[l|s]|] eqn:E.
    + rewrite range_tail by exact Hpos. fold (last_n keep_last l).
      destruct (last_n keep_last l) as [|m kept] eqn:Hkept; cbv beta iota.
      * eexists. split; [reflexivity |]. cbn [db]. apply Hdel.
      * eexists. split; [reflexivity |]. cbn [db].
        rewrite (lookup_insert_eq (db w) key).
        split; [reflexivity |]. split; [discriminate |].
        intros k Hk. now apply lookup_insert_ne.
    + now destruct (Hok s).
    + eexists. split; [reflexivity |]. cbn [db]. rewrite E.
      split; [now rewrite last_n_nil |].
      split; [discriminate | reflexivity].
Qed.

(** ** appending, then fetching *)



(** ** trimming *)

Lemma last_n_length {A} (l : list A) (n : Z) :
  (0 < n)%Z -> (Py.llen (last_n n l) <= n)%Z.
Proof.
  intros Hn. unfold last_n, Py.llen. rewrite length_skipn. lia.
Qed.





(** ** the summary, written and read back *)

Lemma get_summary_fst (sid : Py.str) (w : World) :
  fst (ChatRepository.get_summary sid w)
  = match db w !! ChatRepository._key_summary sid with
    | None => Ok ""
    | Some (redis.VString v) => Ok (Py.strip v)
    | Some (redis.VList _) => Raise redis.WRONGTYPE
    end.
Proof.
  unfold ChatRepository.get_summary, bind, log, on_redis, redis.get, ret.
  cbn. destruct (db w !! ChatRepository._key_summary sid) as [[l|v]|];
    try reflexivity.
  destruct v; reflexivity.
Qed.

Lemma get_last_messages_ext (sid : Py.str) (limit : Z) (w1 w2 : World) :
  db w1 !! ChatRepository._key_messages sid
  = db w2 !! ChatRepository._key_messages sid ->
  fst (ChatRepository.get_last_messages sid limit w1)
  = fst (ChatRepository.get_last_messages sid limit w2).
Proof.
  intros Hkey.
  unfold ChatRepository.get_last_messages, bind, log, on_redis,
         redis.lrange, ret.
  cbn. rewrite Hkey.
  now destruct (db w2 !! ChatRepository._key_messages sid) as [[l|v]|].
Qed.

Lemma get_summary_ext (sid : Py.str) (w1 w2 : World) :
  db w1 !! ChatRepository._key_summary sid
  = db w2 !! ChatRepository._key_summary sid ->
  fst (ChatRepository.get_summary sid w1)
  = fst (ChatRepository.get_summary sid w2).
Proof. intros Hkey. now rewrite !get_summary_fst, Hkey. Qed.

Lemma set_summary_run (sid text : Py.str) (w : World) :
  ChatRepository.set_summary sid text w
  = (Ok tt,
     mkWorld (<[ChatRepository._key_summary sid := redis.VString text]>
                (db w))
             (service_gemini w) (calls w ++ [EvSetSummary sid text])).
Proof. reflexivity. Qed.

(** X10. [set_summary] never raises, and a [get_summary] after it returns the
    text that was stored with the whitespace at its ends removed, since
    the read strips it; the stored log of the session is not touched.  A
    session without a summary key reads as the empty summary. *)
Theorem summary_round_trip (sid text : Py.str) (w : World) :
  fst ((exec ChatRepository.set_summary sid text;
        ChatRepository.get_summary sid) w)
  = Ok (Py.strip text)
  /\ stored_log (snd (ChatRepository.set_summary sid text w)) sid
     = stored_log w sid
  /\ (db w !! ChatRepository._key_summary sid = None ->
      fst (ChatRepository.get_summary sid w) = Ok "").
Proof.
  split; [| split].
  - rewrite (bind_ok _ _ _ _ _ (set_summary_run sid text w)).
    rewrite get_summary_fst. cbn [db].
    now rewrite (lookup_insert_eq (db w) (ChatRepository._key_summary sid)).
  - rewrite set_summary_run. unfold stored_log. cbn [snd db].
    rewrite lookup_insert_ne; [reflexivity |].
    intros Heq. symmetry in Heq. exact (key_messages_summary_ne _ _ Heq).
  - intros Hnone. now rewrite get_summary_fst, Hnone.
Qed.

Lemma summary_round_trip_witness :
  fst ((exec ChatRepository.set_summary "s1" "  so far ";
        ChatRepository.get_summary "s1") stored_world)
  = Ok "so far"
  /\ fst (ChatRepository.get_summary "s1" stored_world) = Ok "".
Proof.
  destruct (summary_round_trip "s1" "  so far " stored_world)
    as (Hread & _ & Hmissing).
  split; [exact Hread | apply Hmissing; reflexivity].
Defined.

(** ** sessions do not interfere *)

Lemma rpush_each_frame (key : Py.str) (msgs : list memory.Message) :
  forall w w' r,
    for_each msgs (fun m => on_redis (redis.rpush key m)) w = (r, w') ->
    forall k, k <> key -> db w' !! k = db w !! k.
Proof.
  induction msgs as [|m msgs IH]; intros w w' r; cbn [for_each].
  - now intros [= <- <-].
  - intros Hrun k Hk.
    apply bind_inv in Hrun as [([] & w1 & Hpush & Hrest)|(e & Hpush & _)].
    + rewrite (IH _ _ _ Hrest k Hk).
      unfold on_redis, redis.rpush in Hpush.
      destruct (db w !! key) as [[l|s]|]; inversion Hpush; subst;
        cbn [db]; now apply lookup_insert_ne.
    + unfold on_redis, redis.rpush in Hpush.
      destruct (db w !! key) as [[l|s]|]; inversion Hpush; subst;
        reflexivity.
Qed.

Lemma append_messages_frame (sid : Py.str) (msgs : list memory.Message)
    (w w' : World) (r : Outcome unit) :
  ChatRepository.append_messages sid msgs w = (r, w') ->
  forall k, k <> ChatRepository._key_messages sid -> db w' !! k = db w !! k.
Proof.
  unfold ChatRepository.append_messages, bind at 1, log.
  destruct msgs as [|m msgs].
  - now intros [= <- <-].
  - intros Hrun k Hk. now rewrite (rpush_each_frame _ _ _ _ _ Hrun k Hk).
Qed.

Lemma on_redis_db {A} (c : M redis.Db A) (w w' : World) (r : Outcome A) :
  on_redis c w = (r, w') -> c (db w) = (r, db w').
Proof.
  unfold on_redis. destruct (c (db w)) as [r0 d]. now intros [= <- <-].
Qed.

Lemma trim_messages_frame (sid : Py.str) (keep_last : Z) (w w' : World)
    (r : Outcome unit) :
  ChatRepository.trim_messages sid keep_last w = (r, w') ->
  forall k, k <> ChatRepository._key_messages sid -> db w' !! k = db w !! k.
Proof.
  unfold ChatRepository.trim_messages, bind at 1, log.
  intros Hrun k Hk.
  destruct (keep_last <=? 0)%Z; apply on_redis_db in Hrun;
    cbn [db] in Hrun.
  - unfold redis.delete in Hrun. apply pair_equal_spec in Hrun as [_ <-].
    now apply lookup_delete_ne.
  - unfold redis.ltrim in Hrun.
    destruct (db w !! ChatRepository._key_messages sid) as [[l|s]|].
    + destruct (redis.range l (- keep_last) (-1));
        apply pair_equal_spec in Hrun as [_ <-];
        [now apply lookup_delete_ne | now apply lookup_insert_ne].
    + now apply pair_equal_spec in Hrun as [_ <-].
    + now apply pair_equal_spec in Hrun as [_ <-].
Qed.

(** X11. A write for one session (appending messages, setting the summary or
    trimming the log), whether it returns or raises, changes nothing that a
    read for another session returns.  Within one session, setting the
    summary leaves the messages that a fetch returns, and appending or
    trimming leaves the summary. *)
Theorem sessions_isolated (sid other : Py.str) (w w' : World)
    (r : Outcome unit) :
  (exists msgs, ChatRepository.append_messages sid msgs w = (r, w'))
  \/ (exists text, ChatRepository.set_summary sid text w = (r, w'))
  \/ (exists keep_last, ChatRepository.trim_messages sid keep_last w = (r, w'))
  ->
  (sid <> other ->
   fst (ChatRepository.get_summary other w')
   = fst (ChatRepository.get_summary other w)
   /\ forall limit,
        fst (ChatRepository.get_last_messages other limit w')
        = fst (ChatRepository.get_last_messages other limit w))
  /\ ((exists text, ChatRepository.set_summary sid text w = (r, w')) ->
      forall limit,
        fst (ChatRepository.get_last_messages sid limit w')
        = fst (ChatRepository.get_last_messages sid limit w))
  /\ ((exists text, ChatRepository.set_summary sid text w = (r, w'))
      \/ fst (ChatRepository.get_summary sid w')
         = fst (ChatRepository.get_summary sid w)).
Proof.
  intros Hwrite.
  assert (Hframe :
    (forall k, k <> ChatRepository._key_messages sid ->
               db w' !! k = db w !! k)
    \/ (forall k, k <> ChatRepository._key_summary sid ->
                  db w' !! k = db w !! k)).
  { destruct Hwrite as [[msgs Hrun]|[[text Hrun]|[keep Hrun]]].
    - left. exact (append_messages_frame _ _ _ _ _ Hrun).
    - right. rewrite set_summary_run in Hrun. injection Hrun as <- <-.
      intros k Hk. cbn [db]. now apply lookup_insert_ne.
    - left. exact (trim_messages_frame _ _ _ _ _ Hrun). }
  split; [| split].
  - intros Hother. split; [| intros limit].
    + apply get_summary_ext.
      destruct Hframe as [Hf|Hf]; apply Hf.
      * intros Heq. symmetry in Heq. exact (key_messages_summary_ne _ _ Heq).
      * intros Heq. apply key_summary_inj in Heq. congruence.
    + apply get_last_messages_ext.
      destruct Hframe as [Hf|Hf]; apply Hf.
      * intros Heq. apply key_messages_inj in Heq. congruence.
      * apply key_messages_summary_ne.
  - intros [text Hrun] limit. apply get_last_messages_ext.
    rewrite set_summary_run in Hrun. injection Hrun as <- <-. cbn [db].
    apply lookup_insert_ne.
    intros Heq. symmetry in Heq. exact (key_messages_summary_ne _ _ Heq).
  - destruct Hwrite as [[msgs Hrun]|[[text Hrun]|[keep Hrun]]].
    + right. apply get_summary_ext.
      apply (append_messages_frame _ _ _ _ _ Hrun).
      intros Heq. symmetry in Heq. exact (key_messages_summary_ne _ _ Heq).
    + left. now exists text.
    + right. apply get_summary_ext.
      apply (trim_messages_frame _ _ _ _ _ Hrun).
      intros Heq. symmetry in Heq. exact (key_messages_summary_ne _ _ Heq).
Qed.

Lemma sessions_isolated_witness :
  let after :=
    snd (ChatRepository.trim_messages "s2" 0 stored_world) in
  fst (ChatRepository.get_last_messages "s1" 10 after)
  = fst (ChatRepository.get_last_messages "s1" 10 stored_world).
Proof.
  intros after.
  destruct (sessions_isolated "s2" "s1" stored_world after (Ok tt))
    as (Hother & _).
  - right; right. exists 0%Z. reflexivity.
  - apply Hother. discriminate.
Defined.

(** ** resolving the provider *)

(** X12. [_get_gemini] on a service that has not created its Gemini provider
    yet: without an API key it raises the [ValueError] that names the
    missing key and changes nothing; with a key it returns the provider of
    the configured model and that key and keeps it.  Whenever it returns, a
    second call returns the same provider and changes nothing, and no call
    touches the database or the call log. *)
Theorem get_gemini_lazy (self : ChatService.t) (w : World) :
  let settings := ChatService._settings self in
  (service_gemini w = None -> config.google_api_key settings = "" ->
   ChatService._get_gemini self w
   = (Raise (ValueError
        ("Gemini requires GOOGLE_API_KEY. Set GOOGLE_API_KEY=your_key "
         +:+ "in .env (project root) and restart the server.")), w))
  /\ (service_gemini w = None -> config.google_api_key settings <> "" ->
      let g := mkGeminiProvider (config.gemini_model settings)
                                (config.google_api_key settings) in
      ChatService._get_gemini self w
      = (Ok g, mkWorld (db w) (Some g) (calls w)))
  /\ (forall g w1,
         ChatService._get_gemini self w = (Ok g, w1) ->
         ChatService._get_gemini self w1 = (Ok g, w1)
         /\ db w1 = db w /\ calls w1 = calls w).
Proof.
  cbv zeta. unfold ChatService._get_gemini, bind, read_gemini, write_gemini,
                   raise, ret.
  split; [| split].
  - intros -> ->. destruct w; reflexivity.
  - intros -> Hkey.
    destruct (config.google_api_key (ChatService._settings self));
      [congruence | reflexivity].
  - intros g w1.
    destruct (service_gemini w) as [g0|] eqn:Hslot.
    + intros [= <- <-]. now rewrite Hslot.
    + destruct (negb _); intros [= <- <-]. cbn. repeat split.
Qed.

Lemma get_gemini_lazy_witness :
  ChatService._get_gemini calm_service empty_world
  = (Raise (ValueError
       ("Gemini requires GOOGLE_API_KEY. Set GOOGLE_API_KEY=your_key "
        +:+ "in .env (project root) and restart the server.")),
     empty_world)
  /\ ChatService._get_gemini (ChatService.mk keyed_settings local_llama)
       empty_world
     = (Ok (mkGeminiProvider "gemini-2.0-flash" "secret"),
        mkWorld ∅ (Some (mkGeminiProvider "gemini-2.0-flash" "secret")) []).
Proof.
  split.
  - apply (get_gemini_lazy calm_service empty_world); reflexivity.
  - apply (get_gemini_lazy (ChatService.mk keyed_settings local_llama)
             empty_world); [reflexivity | discriminate].
Defined.



(** ** the memory mode and the result of [ask] *)

Section ask_shape.
Context `{Backends}.

Lemma ask_mode_ext (self : ChatService.t) (prompt provider : Py.str)
    (session_id m1 m2 : option Py.str)
    (max_messages keep_last window_size : option Z) :
  memory_mode self m1 = memory_mode self m2 ->
  ChatService.ask self prompt provider session_id m1
                  max_messages keep_last window_size
  = ChatService.ask self prompt provider session_id m2
                    max_messages keep_last window_size.
Proof.
  unfold memory_mode. cbv zeta. intros Hmode.
  unfold ChatService.ask. cbv zeta. now rewrite Hmode.
Qed.

(** X14. A memory mode that is none of "rolling", "window", "none" is taken as
    "rolling" without an error; a missing or empty mode is taken as the
    configured strategy. *)
Theorem ask_memory_fallback (self : ChatService.t) (prompt provider : Py.str)
    (session_id : option Py.str) (m : Py.str)
    (max_messages keep_last window_size : option Z) :
  (m <> "" -> Py.str_in m ["rolling"; "window"; "none"] = false ->
   ChatService.ask self prompt provider session_id (Some m)
                   max_messages keep_last window_size
   = ChatService.ask self prompt provider session_id (Some "rolling")
                     max_messages keep_last window_size)
  /\ ChatService.ask self prompt provider session_id None
                     max_messages keep_last window_size
     = ChatService.ask self prompt provider session_id
         (Some (config.memory_strategy (ChatService._settings self)))
         max_messages keep_last window_size
  /\ ChatService.ask self prompt provider session_id (Some "")
                     max_messages keep_last window_size
     = ChatService.ask self prompt provider session_id None
                       max_messages keep_last window_size.
Proof.
  split; [| split].
  - intros Hne Hunknown. apply ask_mode_ext.
    unfold memory_mode, Py.opt_or, Py.str_or. cbv zeta.
    destruct m as [|c m]; [congruence |]. cbn [Py.is_empty Py.truthy negb].
    now rewrite Hunknown.
  - apply ask_mode_ext. unfold memory_mode, Py.opt_or. cbv zeta.
    now destruct (config.memory_strategy (ChatService._settings self)).
  - apply ask_mode_ext. reflexivity.
Qed.

(** X15. Whenever [ask] returns, in any mode, the result carries the session id
    that was given, and the provider name [gemini] when the selector is
    "gemini" or empty and [ollama] otherwise. *)
Theorem ask_result_echo (self : ChatService.t) (prompt provider : Py.str)
    (session_id memory : option Py.str)
    (max_messages keep_last window_size : option Z)
    (w w' : World) (result : ChatService.ChatResult) :
  ChatService.ask self prompt provider session_id memory
                  max_messages keep_last window_size w
  = (Ok result, w') ->
  ChatService.session_id result = session_id
  /\ ChatService.provider result
     = (if Py.str_in (selector provider) ["gemini"; ""]
        then gemini else ollama).
Proof.
  intros Hask. unfold ChatService.ask in Hask.
  apply bind_ok_inv in Hask as ([provider_name llm] & w1 & Hprov & Hask).
  assert (Hname : provider_name
                  = if Py.str_in (selector provider) ["gemini"; ""]
                    then gemini else ollama).
  { unfold ChatService._get_provider in Hprov.
    fold (selector provider) in Hprov.
    destruct (Py.str_in (selector provider) ["gemini"; ""]).
    - apply bind_ok_inv in Hprov as (g & w0 & _ & [= <- _ _]). reflexivity.
    - destruct (Py.str_in (selector provider) ["ollama"; "local"]);
        [now injection Hprov as <- _ _ | discriminate]. }
  rewrite <- Hname. clear Hname Hprov.
  cbv zeta in Hask.
  destruct (negb (Py.opt_truthy session_id) || _).
  - apply bind_ok_inv in Hask as (reply & w2 & _ & [= <- _]).
    split; reflexivity.
  - apply bind_ok_inv in Hask as (summary & w2 & _ & Hask).
    apply bind_ok_inv in Hask as (messages & w3 & _ & Hask).
    apply bind_ok_inv in Hask as (session & w4 & _ & Hask).
    apply bind_ok_inv in Hask as (reply & w5 & _ & Hask).
    apply bind_ok_inv in Hask as ([] & w6 & _ & Hask).
    apply bind_ok_inv in Hask as ([] & w7 & _ & [= <- _]).
    split; reflexivity.
Qed.

End ask_shape.

Lemma ask_memory_fallback_witness :
  @ChatService.ask (canned (Some "ok")) eager_service "hi" "ollama"
    (Some "s1") (Some "Rolling") None None None stored_world
  = @ChatService.ask (canned (Some "ok")) eager_service "hi" "ollama"
      (Some "s1") (Some "rolling") None None None stored_world.
Proof.
  destruct (@ask_memory_fallback (canned (Some "ok")) eager_service "hi"
              "ollama" (Some "s1") "Rolling" None None None)
    as (Hunknown & _).
  exact (f_equal (fun run => run stored_world)
                 (Hunknown ltac:(discriminate) eq_refl)).
Defined.

Lemma ask_result_echo_witness :
  exists result w',
    @ChatService.ask (canned (Some "ok")) eager_service "hi" "LOCAL"
      (Some "s1") (Some "window") None None None stored_world
    = (Ok result, w')
    /\ ChatService.session_id result = Some "s1"
    /\ ChatService.provider result = ollama.
Proof.
  destruct (@ChatService.ask (canned (Some "ok")) eager_service "hi" "LOCAL"
              (Some "s1") (Some "window") None None None stored_world)
    as [[result|e] w'] eqn:Hask; [| vm_compute in Hask; discriminate].
  exists result, w'. split; [reflexivity |].
  exact (@ask_result_echo (canned (Some "ok")) eager_service "hi" "LOCAL"
           (Some "s1") (Some "window") None None None stored_world w'
           result Hask).
Defined.

(** ** what [ask] leaves in the store *)


Lemma get_last_messages_log_ok (sid : Py.str) (limit : Z) (w w' : World)
    (msgs : list memory.Message) :
  ChatRepository.get_last_messages sid limit w = (Ok msgs, w') ->
  log_ok w sid.
Proof.
  unfold ChatRepository.get_last_messages, bind, log, on_redis,
         redis.lrange, ret, log_ok.
  cbn. intros Hrun s Hs. rewrite Hs in Hrun. discriminate.
Qed.

Section ask_store.
Context `{Backends}.


(** The state of the store after the part of the stateful path that
    follows the bounding step: the pair is appended to the log, and in
    window mode the log is trimmed. *)
Lemma finish_store (llm : Provider) (sid prompt text : Py.str)
    (provider_name : ProviderName) (session_id : option Py.str)
    (trim : option Z) (w0 w' : World) (result : ChatService.ChatResult) :
  log_ok w0 sid ->
  (do reply <- generate llm text;
   exec ChatRepository.append_messages sid
          [memory.mkMessage memory.user prompt;
           memory.mkMessage memory.assistant (Py.strip reply)];
   exec (match trim with
         | Some size => ChatRepository.trim_messages sid size
         | None => ret tt
         end);
   ret (ChatService.mkChatResult provider_name (Py.strip reply)
                                 session_id)) w0
  = (Ok result, w') ->
  let pair := [memory.mkMessage memory.user prompt;
               memory.mkMessage memory.assistant
                 (ChatService.reply result)] in
  stored_log w' sid
  = match trim with
    | Some size =>
        if (size <=? 0)%Z then []
        else last_n size (stored_log w0 sid ++ pair)
    | None => stored_log w0 sid ++ pair
    end
  /\ forall k, k <> ChatRepository._key_messages sid ->
               db w' !! k = db w0 !! k.
Proof.
  intros Hok Hrun. cbv zeta.
  apply bind_ok_inv in Hrun as (reply & w1 & Hgen & Hrun).
  apply generate_world in Hgen.
  assert (Hok1 : log_ok w1 sid) by (subst w1; exact Hok).
  destruct (append_messages_effect sid
              [memory.mkMessage memory.user prompt;
               memory.mkMessage memory.assistant (Py.strip reply)]
              w1 Hok1) as (w2 & Happ & Hlog2 & Hok2 & Hframe2).
  rewrite (bind_ok _ _ _ _ _ Happ) in Hrun.
  assert (Hlog1 : stored_log w1 sid = stored_log w0 sid)
    by (subst w1; reflexivity).
  assert (Hdb1 : db w1 = db w0) by (subst w1; reflexivity).
  destruct trim as [size|].
  - destruct (trim_messages_effect sid size w2 Hok2)
      as (w3 & Htrim & Hlog3 & _ & Hframe3).
    rewrite (bind_ok _ _ _ _ _ Htrim) in Hrun.
    injection Hrun as <- <-. cbn [ChatService.reply].
    split.
    + rewrite Hlog3, Hlog2, Hlog1. reflexivity.
    + intros k Hk. now rewrite (Hframe3 k Hk), (Hframe2 k Hk), Hdb1.
  - unfold bind at 1 in Hrun. cbn [ret] in Hrun.
    injection Hrun as <- <-. cbn [ChatService.reply].
    split.
    + now rewrite Hlog2, Hlog1.
    + intros k Hk. now rewrite (Hframe2 k Hk), Hdb1.
Qed.

(** X17. In window mode with a session id, when [ask] returns: with a positive
    effective window size the stored log is the last [window_size] messages
    of the old log followed by the new user message and the new assistant
    message, so it is never longer than [window_size]; with a window size
    of 0 or less the stored log is empty.  The stored summary and every
    other key are as before. *)
Theorem ask_window_store (self : ChatService.t)
    (prompt provider sid : Py.str) (memory : option Py.str)
    (max_messages keep_last window_size : option Z)
    (w w' : World) (result : ChatService.ChatResult) :
  sid <> "" ->
  memory_mode self memory = "window" ->
  ChatService.ask self prompt provider (Some sid) memory
                  max_messages keep_last window_size w
  = (Ok result, w') ->
  let win_size :=
    Py.opt_or (Z.eqb 0) window_size
              (config.window_size (ChatService._settings self)) in
  let pair := [memory.mkMessage memory.user prompt;
               memory.mkMessage memory.assistant
                 (ChatService.reply result)] in
  stored_log w' sid
  = (if (win_size <=? 0)%Z then []
     else last_n win_size (stored_log w sid ++ pair))
  /\ (Py.llen (stored_log w' sid) <= Z.max 0 win_size)%Z
  /\ forall k, k <> ChatRepository._key_messages sid ->
               db w' !! k = db w !! k.
Proof.
  intros Hsid Hmode Hask. cbv zeta.
  unfold ChatService.ask in Hask.
  apply bind_ok_inv in Hask as ([provider_name llm] & w1 & Hprov & Hask).
  cbv zeta in Hask. unfold memory_mode in Hmode. cbv zeta in Hmode.
  rewrite Hmode in Hask.
  cbn [Py.opt_truthy] in Hask. rewrite (truthy_nonempty _ Hsid) in Hask.
  change ("window" =? "none") with false in Hask.
  change ("window" =? "rolling") with false in Hask.
  change ("window" =? "window") with true in Hask.
  cbn [negb orb memory.summary memory.messages] in Hask.
  destruct (_get_provider_world _ _ _ _ _ Hprov) as (Hdb1 & _ & _).
  apply bind_ok_inv in Hask as (summary & w2 & Hsum & Hask).
  apply bind_ok_inv in Hask as (messages & w3 & Hmsgs & Hask).
  pose proof (get_summary_world _ _ _ _ Hsum) as Hw2.
  pose proof (get_last_messages_log_ok _ _ _ _ _ Hmsgs) as Hok2.
  pose proof (get_last_messages_world _ _ _ _ _ Hmsgs) as Hw3.
  unfold bind at 1 in Hask. cbn [ret] in Hask.
  assert (Hdb3 : db w3 = db w) by (subst w3 w2; exact Hdb1).
  assert (Hok3 : log_ok w3 sid) by (subst w3; exact Hok2).
  apply (finish_store llm sid prompt _ provider_name (Some sid)
           (Some (Py.opt_or (Z.eqb 0) window_size
                    (config.window_size (ChatService._settings self))))
           w3 w' result Hok3) in Hask.
  cbv zeta in Hask. destruct Hask as [Hlog Hframe].
  assert (Hlog3 : stored_log w3 sid = stored_log w sid)
    by (unfold stored_log; now rewrite Hdb3).
  rewrite Hlog3 in Hlog. split; [exact Hlog |]. split.
  - rewrite Hlog.
    destruct (Z.leb_spec (Py.opt_or (Z.eqb 0) window_size
                 (config.window_size (ChatService._settings self))) 0)
      as [Hle|Hpos].
    + unfold Py.llen. cbn [length]. lia.
    + pose proof (last_n_length
                    (stored_log w sid
                     ++ [memory.mkMessage memory.user prompt;
                         memory.mkMessage memory.assistant
                           (ChatService.reply result)]) _ Hpos). lia.
  - intros k Hk. now rewrite (Hframe k Hk), Hdb3.
Qed.


End ask_store.

Lemma ask_window_store_witness :
  exists result w',
    @ChatService.ask (canned (Some "ok")) eager_service "hi" "ollama"
      (Some "s1") (Some "window") None None None twelve_world
    = (Ok result, w')
    /\ stored_log w' "s1"
       = last_n 5 (twelve_messages
                   ++ [said memory.user "hi";
                       said memory.assistant (ChatService.reply result)]).
Proof.
  destruct (@ChatService.ask (canned (Some "ok")) eager_service "hi" "ollama"
              (Some "s1") (Some "window") None None None twelve_world)
    as [[result|e] w'] eqn:Hask; [| vm_compute in Hask; discriminate].
  destruct (@ask_window_store (canned (Some "ok")) eager_service "hi"
              "ollama" "s1" (Some "window") None None None
              twelve_world w' result) as (Hlog & _).
  - discriminate.
  - reflexivity.
  - exact Hask.
  - exists result, w'. split; [reflexivity | exact Hlog].
Defined.


(** ** the [/ask] endpoint *)

Section endpoint.
Context `{Backends}.

(** X21. Unless the request passes an empty [memory] parameter, the endpoint
    behaves the same under configurations that differ in the memory
    strategy only: a request that leaves [memory] out runs in rolling
    mode, whatever strategy is configured. *)
Theorem ask_ai_ignores_configured_strategy (settings : config.Settings)
    (m prompt : Py.str) (provider session_id memory : option Py.str)
    (w : World) :
  memory <> Some "" ->
  routes.ask_ai (with_memory_strategy m settings) prompt provider
                session_id memory w
  = routes.ask_ai settings prompt provider session_id memory w
  /\ routes.ask_ai settings prompt provider session_id None w
     = routes.ask_ai settings prompt provider session_id (Some "rolling") w.
Proof.
  intros Hmem. split; [| reflexivity].
  destruct settings as [key dflt gmodel ohost omodel url strategy
                        fetch threshold maxm keep win].
  destruct memory as [[|c mem]|];
    [exfalso; apply Hmem; reflexivity | reflexivity | reflexivity].
Qed.

(** X22. When no API key is configured, a request for the Gemini backend (the
    provider left out, blank, or "gemini" in any letter case) is answered
    with status 400 and the message that names the missing key; nothing is
    read from or written to the store and no backend is called. *)
Theorem ask_ai_missing_key (settings : config.Settings) (prompt : Py.str)
    (provider session_id memory : option Py.str) (w : World) :
  config.google_api_key settings = "" ->
  provider = None
  \/ (exists p, provider = Some p
                /\ (selector p = "gemini" \/ selector p = "")) ->
  routes.ask_ai settings prompt provider session_id memory w
  = (routes.HTTPException 400
       ("Gemini requires GOOGLE_API_KEY. Set GOOGLE_API_KEY=your_key "
        +:+ "in .env (project root) and restart the server."),
     mkWorld (db w) None (calls w)).
Proof.
  intros Hkey Hprovider.
  assert (Hresolve : forall p,
    selector p = "gemini" \/ selector p = "" ->
    ChatService._get_provider
      (ChatService.mk settings
         (mkOllamaProvider (config.ollama_model settings)
                           (config.ollama_host settings)))
      p (mkWorld (db w) None (calls w))
    = (Raise (ValueError
         ("Gemini requires GOOGLE_API_KEY. Set GOOGLE_API_KEY=your_key "
          +:+ "in .env (project root) and restart the server.")),
       mkWorld (db w) None (calls w))).
  { intros p Hsel. unfold ChatService._get_provider. fold (selector p).
    replace (Py.str_in (selector p) ["gemini"; ""]) with true
      by (destruct Hsel as [-> | ->]; reflexivity).
    unfold ChatService._get_gemini, bind, read_gemini, raise.
    cbn [service_gemini ChatService._settings]. now rewrite Hkey. }
  unfold routes.ask_ai, routes.get_chat_service, ChatService.__init__,
         ChatService.ask.
  unfold bind at 1 2. cbn [write_gemini ret].
  destruct Hprovider as [-> | (p & -> & Hsel)].
  - now rewrite (bind_raise _ _ _ _ _ (Hresolve "gemini" (or_introl eq_refl))).
  - now rewrite (bind_raise _ _ _ _ _ (Hresolve p Hsel)).
Qed.

End endpoint.

Lemma ask_ai_ignores_configured_strategy_witness :
  @routes.ask_ai (canned (Some "ok"))
    (with_memory_strategy "window" eager_settings) "hi" (Some "ollama")
    (Some "s1") None twelve_world
  = @routes.ask_ai (canned (Some "ok")) eager_settings "hi" (Some "ollama")
      (Some "s1") None twelve_world.
Proof.
  apply (@ask_ai_ignores_configured_strategy (canned (Some "ok"))
           eager_settings "window" "hi" (Some "ollama") (Some "s1") None
           twelve_world).
  discriminate.
Defined.

Lemma ask_ai_missing_key_witness :
  @routes.ask_ai (canned (Some "ok")) sample_settings "hi" (Some " Gemini")
    None None stored_world
  = (routes.HTTPException 400
       ("Gemini requires GOOGLE_API_KEY. Set GOOGLE_API_KEY=your_key "
        +:+ "in .env (project root) and restart the server."),
     stored_world).
Proof.
  apply (@ask_ai_missing_key (canned (Some "ok")) sample_settings "hi"
           (Some " Gemini") None None stored_world); [reflexivity |].
  right. exists " Gemini". split; [reflexivity | left; reflexivity].
Defined.

(** ** the [/models] endpoint *)

Lemma model_info_eta (models : list ModelInfo) :
  map (fun m => mkModelInfo (model_name m) (model_display_name m)) models
  = models.
Proof.
  induction models as [|[n d] models IH]; [reflexivity |].
  cbn. now rewrite IH.
Qed.

Section models_endpoint.
Context `{ModelCatalog}.

(** X23. [/models] answers every failure with status 500: without an API key it
    answers 500 with the message that names the missing key (the same
    [ValueError] that [/ask] answers with 400), and the catalogue is not
    asked.  With a key it returns the listed models, each with its name and
    display name, in the order of the catalogue. *)
Theorem list_models_answers (settings : config.Settings) (w : World) :
  (config.google_api_key settings = "" ->
   routes.list_models settings w
   = (routes.ModelsException 500
        ("Gemini requires GOOGLE_API_KEY. Set GOOGLE_API_KEY=your_key "
         +:+ "in .env (project root) and restart the server."),
      mkWorld (db w) None (calls w)))
  /\ (forall code detail w',
         routes.list_models settings w
         = (routes.ModelsException code detail, w') ->
         code = 500%Z)
  /\ (config.google_api_key settings <> "" ->
      forall models,
        genai_models_list (calls w) (config.google_api_key settings)
        = Listed models ->
        routes.list_models settings w
        = (routes.ModelsJson models,
           mkWorld (db w)
             (Some (mkGeminiProvider (config.gemini_model settings)
                                     (config.google_api_key settings)))
             (calls w))).
Proof.
  unfold routes.list_models, routes.get_chat_service, ChatService.__init__,
         ChatService.list_gemini_models, ChatService._get_gemini.
  unfold bind, write_gemini, read_gemini, raise, ret, call_catalog.
  cbn [service_gemini ChatService._settings calls db gemini_client].
  split; [| split].
  - intros ->. reflexivity.
  - intros code detail w'.
    destruct (negb (Py.truthy (config.google_api_key settings)));
      [now intros [= <- _ _] |].
    cbn [service_gemini calls db gemini_client].
    destruct (genai_models_list _ _); [discriminate | now intros [= <- _ _]].
  - intros Hkey models Hlist.
    destruct (config.google_api_key settings) as [|c key] eqn:E;
      [congruence |].
    cbn [Py.truthy Py.is_empty negb calls gemini_client].
    rewrite Hlist. now rewrite model_info_eta.
Qed.

End models_endpoint.

Lemma list_models_answers_witness :
  @routes.list_models one_model sample_settings stored_world
  = (routes.ModelsException 500
       ("Gemini requires GOOGLE_API_KEY. Set GOOGLE_API_KEY=your_key "
        +:+ "in .env (project root) and restart the server."),
     stored_world)
  /\ @routes.list_models one_model keyed_settings empty_world
     = (routes.ModelsJson
          [mkModelInfo (Some "models/gemini-2.0-flash") None],
        mkWorld ∅ (Some (mkGeminiProvider "gemini-2.0-flash" "secret")) []).
Proof.
  split.
  - apply (@list_models_answers one_model sample_settings stored_world).
    reflexivity.
  - apply (@list_models_answers one_model keyed_settings empty_world);
      [discriminate | reflexivity].
Defined.

(** ** the rolling summary, applied twice *)

(** X3. When the rolling summary returns, applying it again with the same
    bounds returns the session it produced and changes nothing: the
    backend is not asked a second time. *)
Theorem apply_rolling_summary_settles {W P} `{LLMProvider W P}
    (session session' : memory.ChatSession) (provider : P)
    (max_messages keep_last : Z) (w w' : W) :
  memory.apply_rolling_summary session provider max_messages keep_last w
  = (Ok session', w') ->
  forall w2,
    memory.apply_rolling_summary session' provider max_messages keep_last w2
    = (Ok session', w2).
Proof.
  unfold memory.apply_rolling_summary at 1.
  destruct (Z.leb_spec max_messages 0) as [Hmax|Hmax].
  { intros [= <- _] w2. unfold memory.apply_rolling_summary.
    destruct (Z.leb_spec max_messages 0); [reflexivity | lia]. }
  destruct (Z.leb_spec (Py.llen (memory.messages session)) max_messages)
    as [Hcount|Hcount].
  { intros [= <- _] w2. unfold memory.apply_rolling_summary.
    destruct (Z.leb_spec max_messages 0); [reflexivity |].
    destruct (Z.leb_spec (Py.llen (memory.messages session)) max_messages);
      [reflexivity | lia]. }
  cbv zeta.
  destruct (Z.ltb_spec (Z.max 0 keep_last)
                       (Py.llen (memory.messages session))) as [Hlt|Hge].
  - destruct (Py.slice_to (memory.messages session) (- Z.max 0 keep_last))
      as [|m older] eqn:Holder.
    + intros [= <- _] w2. unfold memory.apply_rolling_summary.
      destruct (Z.leb_spec max_messages 0); [reflexivity |].
      destruct (Z.leb_spec (Py.llen (memory.messages session)) max_messages);
        [reflexivity |].
      cbv zeta.
      destruct (Z.ltb_spec (Z.max 0 keep_last)
                           (Py.llen (memory.messages session)));
        [now rewrite Holder | reflexivity].
    + intros Hrun w2.
      apply bind_ok_inv in Hrun as (raw & w1 & _ & [= <- _]).
      assert (Hpos : (0 < Z.max 0 keep_last)%Z).
      { destruct (Z.eq_dec (Z.max 0 keep_last) 0%Z) as [Hz|]; [| lia].
        rewrite Hz, slice_to_zero in Holder. discriminate. }
      destruct (Z.gtb_spec (Z.max 0 keep_last) 0) as [_|]; [| lia].
      destruct (slices_partition (memory.messages session)
                                 (Z.max 0 keep_last)) as [_ Hlen]; [lia |].
      unfold memory.apply_rolling_summary.
      cbn [memory.summary memory.messages].
      destruct (Z.leb_spec max_messages 0); [reflexivity |].
      rewrite Hlen.
      destruct (Z.leb_spec (Z.max 0 keep_last) max_messages);
        [reflexivity |].
      cbv zeta.
      destruct (Z.ltb_spec (Z.max 0 keep_last) (Z.max 0 keep_last));
        [lia | reflexivity].
  - intros [= <- _] w2. unfold memory.apply_rolling_summary.
    destruct (Z.leb_spec max_messages 0); [reflexivity |].
    destruct (Z.leb_spec (Py.llen (memory.messages session)) max_messages);
      [reflexivity |].
    cbv zeta.
    destruct (Z.ltb_spec (Z.max 0 keep_last)
                         (Py.llen (memory.messages session)));
      [lia | reflexivity].
Qed.

Lemma apply_rolling_summary_settles_witness :
  let compacted := memory.mkChatSession "ok" [said memory.user "three"] in
  @memory.apply_rolling_summary _ _
    (@Ollama_is_provider (canned (Some "ok")))
    compacted local_llama 2 1 empty_world
  = (Ok compacted, empty_world).
Proof.
  intros compacted.
  apply (@apply_rolling_summary_settles _ _
           (@Ollama_is_provider (canned (Some "ok")))
           (memory.mkChatSession "" three_messages) compacted
           local_llama 2 1 empty_world
           (mkWorld ∅ None
              [EvSummarize ollama
                 (compaction_text "" (firstn 2 three_messages));
               EvGenerate ollama
                 (summarize_prompt
                    (compaction_text "" (firstn 2 three_messages)))])).
  vm_compute. reflexivity.
Defined.

(** ** [ask] stays within its session *)

Lemma keeps_ret (sid : Py.str) {A} (a : A) : keeps_other_keys sid (ret a).
Proof. intros w r w' [= _ <-]. reflexivity. Qed.

Lemma keeps_raise (sid : Py.str) {A} (e : Exn) :
  keeps_other_keys sid (@raise World A e).
Proof. intros w r w' [= _ <-]. reflexivity. Qed.

Lemma keeps_bind (sid : Py.str) {A B} (c : M World A) (k : A -> M World B) :
  keeps_other_keys sid c -> (forall a, keeps_other_keys sid (k a)) ->
  keeps_other_keys sid (bind c k).
Proof.
  intros Hc Hk w r w' Hrun key Hm Hs.
  apply bind_inv in Hrun as [(a & w1 & Hca & Hka)|(e & Hce & _)].
  - rewrite (Hk a _ _ _ Hka key Hm Hs). exact (Hc _ _ _ Hca key Hm Hs).
  - exact (Hc _ _ _ Hce key Hm Hs).
Qed.

Lemma keeps_same_db (sid : Py.str) {A} (c : M World A) :
  (forall w r w', c w = (r, w') -> db w' = db w) -> keeps_other_keys sid c.
Proof. intros Hdb w r w' Hrun k _ _. now rewrite (Hdb _ _ _ Hrun). Qed.

Section ask_frame.
Context `{Backends}.

Lemma keeps_generate (sid : Py.str) (llm : Provider) (prompt : Py.str) :
  keeps_other_keys sid (generate llm prompt).
Proof.
  apply keeps_same_db. intros w r w' Hrun.
  apply generate_world in Hrun. now subst w'.
Qed.

Lemma keeps_rolling (sid : Py.str) (session : memory.ChatSession)
    (llm : Provider) (max_messages keep_last : Z) :
  keeps_other_keys sid
    (memory.apply_rolling_summary session llm max_messages keep_last).
Proof.
  unfold memory.apply_rolling_summary.
  destruct (max_messages <=? 0)%Z; [apply keeps_ret |].
  destruct (_ <=? max_messages)%Z; [apply keeps_ret |].
  cbv zeta. destruct (if (_ <? _)%Z then _ else _); [apply keeps_ret |].
  apply keeps_bind; [| intros; apply keeps_ret].
  apply keeps_same_db. intros w r w' Hrun.
  apply summarize_world in Hrun. now subst w'.
Qed.

Lemma keeps_get_provider (sid : Py.str) (self : ChatService.t)
    (provider : Py.str) :
  keeps_other_keys sid (ChatService._get_provider self provider).
Proof.
  apply keeps_same_db. intros w r w' Hrun.
  now apply _get_provider_world in Hrun as (Hdb & _).
Qed.

Lemma keeps_get_summary (sid : Py.str) :
  keeps_other_keys sid (ChatRepository.get_summary sid).
Proof.
  apply keeps_same_db. intros w r w' Hrun.
  apply get_summary_world in Hrun. now subst w'.
Qed.

Lemma keeps_get_last_messages (sid : Py.str) (limit : Z) :
  keeps_other_keys sid (ChatRepository.get_last_messages sid limit).
Proof.
  apply keeps_same_db. intros w r w' Hrun.
  apply get_last_messages_world in Hrun. now subst w'.
Qed.

Lemma keeps_append_messages (sid : Py.str) (msgs : list memory.Message) :
  keeps_other_keys sid (ChatRepository.append_messages sid msgs).
Proof.
  intros w r w' Hrun k Hm _.
  exact (append_messages_frame _ _ _ _ _ Hrun k Hm).
Qed.

Lemma keeps_trim_messages (sid : Py.str) (keep_last : Z) :
  keeps_other_keys sid (ChatRepository.trim_messages sid keep_last).
Proof.
  intros w r w' Hrun k Hm _.
  exact (trim_messages_frame _ _ _ _ _ Hrun k Hm).
Qed.

Lemma keeps_set_summary (sid text : Py.str) :
  keeps_other_keys sid (ChatRepository.set_summary sid text).
Proof.
  intros w r w' Hrun k _ Hs. rewrite set_summary_run in Hrun.
  injection Hrun as _ <-. cbn [db]. now apply lookup_insert_ne.
Qed.

(** X19. [ask] for a session, in any mode and whether it returns or raises,
    changes no key of the database besides the messages key and the summary
    key of that session; so what the repository returns for any other
    session is the same before and after. *)
Theorem ask_keeps_other_sessions (self : ChatService.t)
    (prompt provider sid : Py.str) (memory : option Py.str)
    (max_messages keep_last window_size : option Z)
    (w w' : World) (r : Outcome ChatService.ChatResult) :
  ChatService.ask self prompt provider (Some sid) memory
                  max_messages keep_last window_size w
  = (r, w') ->
  (forall k,
      k <> ChatRepository._key_messages sid ->
      k <> ChatRepository._key_summary sid ->
      db w' !! k = db w !! k)
  /\ forall other,
       other <> sid ->
       fst (ChatRepository.get_summary other w')
       = fst (ChatRepository.get_summary other w)
       /\ forall limit,
            fst (ChatRepository.get_last_messages other limit w')
            = fst (ChatRepository.get_last_messages other limit w).
Proof.
  intros Hrun.
  assert (Hkeeps : keeps_other_keys sid
            (ChatService.ask self prompt provider (Some sid) memory
                             max_messages keep_last window_size)).
  { unfold ChatService.ask.
    apply keeps_bind; [apply keeps_get_provider |].
    intros [provider_name llm]. cbv zeta.
    destruct (negb _ || _).
    { apply keeps_bind; [apply keeps_generate | intros; apply keeps_ret]. }
    cbn [memory.summary memory.messages].
    apply keeps_bind; [apply keeps_get_summary | intros summary].
    apply keeps_bind; [apply keeps_get_last_messages | intros messages].
    apply keeps_bind.
    { destruct (_ =? "rolling").
      - destruct (_ >? _)%Z; [| apply keeps_ret].
        apply keeps_bind; [apply keeps_rolling | intros rolled].
        apply keeps_bind; [apply keeps_set_summary | intros _].
        apply keeps_bind; [apply keeps_trim_messages | intros _].
        apply keeps_ret.
      - destruct (_ =? "window"); apply keeps_ret. }
    intros session.
    apply keeps_bind; [apply keeps_generate | intros reply].
    apply keeps_bind; [apply keeps_append_messages | intros _].
    apply keeps_bind; [| intros; apply keeps_ret].
    destruct (_ =? "window"); [apply keeps_trim_messages | apply keeps_ret]. }
  pose proof (Hkeeps _ _ _ Hrun) as Hframe.
  split; [exact Hframe |].
  intros other Hother. split; [| intros limit].
  - apply get_summary_ext. apply Hframe.
    + intros Heq. symmetry in Heq. exact (key_messages_summary_ne _ _ Heq).
    + intros Heq. apply key_summary_inj in Heq. contradiction.
  - apply get_last_messages_ext. apply Hframe.
    + intros Heq. apply key_messages_inj in Heq. contradiction.
    + apply key_messages_summary_ne.
Qed.

End ask_frame.

Lemma ask_keeps_other_sessions_witness :
  let after :=
    snd (@ChatService.ask (canned (Some "ok")) eager_service "hi" "ollama"
           (Some "s2") (Some "window") None None None stored_world) in
  fst (ChatRepository.get_last_messages "s1" 10 after)
  = fst (ChatRepository.get_last_messages "s1" 10 stored_world).
Proof.
  intros after.
  destruct (@ask_keeps_other_sessions (canned (Some "ok")) eager_service
              "hi" "ollama" "s2" (Some "window") None None None
              stored_world after
              (fst (@ChatService.ask (canned (Some "ok")) eager_service
                      "hi" "ollama" (Some "s2") (Some "window")
                      None None None stored_world)))
    as (_ & Hother).
  - unfold after. now destruct (ChatService.ask _ _ _ _ _ _ _ _ _).
  - apply Hother. discriminate.
Defined.

(** ** a request that fails adds nothing to the log *)


Section ask_failure.
Context `{Backends}.



End ask_failure.

